(** * testbuilder: SPIN-driven test generation and deployment

    A shallow embedding of [src/testgen-src/src/testbuilder.py] and the
    properties of its operations [clean], [zero], [generate], [copy] and
    [main].

    The script works on the file system, prints to the console and spawns
    external tools.  The embedding makes that explicit:
    - the file system is a finite map from path strings to contents; a
      path is the string the script builds, relative paths being those of
      the working directory; directories are implicit, and two strings
      name two files;
    - console output, spawned commands and directory changes are recorded,
      in order, in a trace of events;
    - the effect of an external command on the file system is an oracle
      [run], a variable of the section holding the operations;
    - [sys.exit] and uncaught exceptions are outcomes of the computation.

    Python's [glob] is embedded for patterns made of characters, [*] and
    [?]; bracket expressions are not interpreted, so the results speak of
    model identifiers and directories without brackets. *)

From Stdlib Require Import Ascii.
From stdpp Require Import gmap strings list fin_maps sorting pretty.

Set Warnings "-register-all".

(** ** Shell-style patterns: Python's [glob] and [fnmatch] *)

Module Glob.

Definition is_sep (c : ascii) : bool := Ascii.eqb c "/".

(** A name is hidden when it starts with a dot. *)
Definition hidden (name : string) : bool :=
  match name with
  | String c _ => Ascii.eqb c "."
  | EmptyString => false
  end.

(** [fnmatch start pat name]: the path [name] matches the pattern [pat].
    [glob.glob] splits the pattern at the separators and matches one
    path component at a time, so neither wildcard runs over a separator;
    a component that starts with a wildcard does not match a hidden name
    ([start] tells that [pat] is at the start of a component).  Bracket
    expressions are not interpreted: a bracket stands for itself. *)
Fixpoint fnmatch (start : bool) (pat name : string) {struct pat} : bool :=
  match pat with
  | EmptyString =>
      match name with EmptyString => true | String _ _ => false end
  | String p pat' =>
      if Ascii.eqb p "*" then
        if start && hidden name then false
        else
          (fix star (s : string) : bool :=
             fnmatch false pat' s
             || match s with
                | EmptyString => false
                | String c s' => negb (is_sep c) && star s'
                end) name
      else if Ascii.eqb p "?" then
        match name with
        | EmptyString => false
        | String c s' =>
            negb (is_sep c) && negb (start && Ascii.eqb c ".")
            && fnmatch false pat' s'
        end
      else
        match name with
        | EmptyString => false
        | String c s' => Ascii.eqb p c && fnmatch (is_sep p) pat' s'
        end
  end.

Definition matches (pat name : string) : Prop := fnmatch true pat name = true.

#[global] Instance matches_dec pat name : Decision (matches pat name).
Proof. unfold matches. apply _. Defined.

(** [glob.glob pat]: the paths of the file system that match [pat].  The
    order Python returns them in is that of the directory listing; here it
    is the order of the map's domain. *)
Definition glob {A} (pat : string) (fs : gmap string A) : list string :=
  filter (matches pat) (elements (dom fs)).

End Glob.

Import Glob.

(** ** YAML documents *)

Inductive yaml : Type :=
  | YNull
  | YBool (b : bool)
  | YInt (z : Z)
  | YStr (s : string)
  | YSeq (l : list yaml)
  | YMap (m : gmap string yaml).

(** Python's truth value of a loaded YAML value. *)
Definition truthy (v : yaml) : bool :=
  match v with
  | YNull => false
  | YBool b => b
  | YInt z => negb (Z.eqb z 0)
  | YStr s => negb (String.eqb s "")
  | YSeq l => match l with [] => false | _ :: _ => true end
  | YMap m => negb (bool_decide (m = ∅))
  end.

(** A sequence of strings, as the manifest's [source] list is. *)
Fixpoint strings_of (l : list yaml) : option (list string) :=
  match l with
  | [] => Some []
  | YStr s :: l' => cons s <$> strings_of l'
  | _ :: _ => None
  end.

(** ** The world: files, and the trace of what the script did *)

(** A file holds opaque text or a serialised YAML document. *)
Inductive content : Type :=
  | Text (s : string)
  | Yaml (v : yaml).

Inductive event : Type :=
  | Print (line : string)      (* print(...) *)
  | PrintFile (c : content)    (* print(file.read()) *)
  | System (cmd : string)      (* os.system(cmd) *)
  | Chdir (dir : string).      (* os.chdir(dir) *)

Record world : Type := World {
  files : gmap string content;
  cwd : option string;         (* None: the directory the script started in *)
  trace : list event
}.

Inductive exn : Type :=
  | FileNotFoundError (path : string)
  | KeyError (key : string)
  | SameFileError (path : string)
  | IndexError
  | TypeError
  | YAMLError.

Inductive outcome (A : Type) : Type :=
  | Ret (a : A)
  | Exit (code : Z)            (* sys.exit(code) *)
  | Raise (e : exn).
Arguments Ret {A} a.
Arguments Exit {A} code.
Arguments Raise {A} e.

(** Computations: state passing over the world, stopped by an exit or an
    exception. *)
Definition M (A : Type) : Type := world → outcome A * world.

Definition ret {A} (a : A) : M A := λ w, (Ret a, w).

Definition bind {A B} (m : M A) (k : A → M B) : M B :=
  λ w, match m w with
       | (Ret a, w') => k a w'
       | (Exit c, w') => (Exit c, w')
       | (Raise e, w') => (Raise e, w')
       end.

#[global] Instance M_ret : MRet M := @ret.
#[global] Instance M_bind : MBind M := λ A B k m, bind m k.

Definition exit {A} (code : Z) : M A := λ w, (Exit code, w).
Definition raise {A} (e : exn) : M A := λ w, (Raise e, w).

Definition emit (e : event) : M unit :=
  λ w, (Ret (), World (files w) (cwd w) (trace w ++ [e])).

Definition print (line : string) : M unit := emit (Print line).

Definition get_files : M (gmap string content) := λ w, (Ret (files w), w).

Definition put_files (fs : gmap string content) : M unit :=
  λ w, (Ret (), World fs (cwd w) (trace w)).

(** [if c: body] *)
Definition when (c : bool) (body : M unit) : M unit :=
  if c then body else ret ().

(** [for x in l: body] *)
Fixpoint for_each {A} (l : list A) (body : A → M unit) : M unit :=
  match l with
  | [] => ret ()
  | x :: l' => body x;; for_each l' body
  end.

(** *** File-system primitives *)

Definition glob_glob (pat : string) : M (list string) :=
  fs ← get_files; ret (glob pat fs).

Definition isfile (path : string) : M bool :=
  fs ← get_files; ret (bool_decide (is_Some (fs !! path))).

(** [os.remove]: the file must be there. *)
Definition os_remove (path : string) : M unit :=
  fs ← get_files;
  match fs !! path with
  | Some _ => put_files (delete path fs)
  | None => raise (FileNotFoundError path)
  end.

(** [shutil.copyfile]: the destination is created or overwritten; copying a
    file onto itself is refused. *)
Definition copyfile (src dst : string) : M unit :=
  if decide (src = dst) then raise (SameFileError src)
  else
    fs ← get_files;
    match fs !! src with
    | Some c => put_files (<[dst := c]> fs)
    | None => raise (FileNotFoundError src)
    end.

(** [yaml.load(open(path))] *)
Definition yaml_load (path : string) : M yaml :=
  fs ← get_files;
  match fs !! path with
  | Some (Yaml v) => ret v
  | Some (Text _) => raise YAMLError
  | None => raise (FileNotFoundError path)
  end.

(** [yaml.dump(v, open(path, 'w'))] *)
Definition yaml_dump (v : yaml) (path : string) : M unit :=
  fs ← get_files; put_files (<[path := Yaml v]> fs).

(** [d[key]] on a loaded document. *)
Definition getitem (d : yaml) (key : string) : M yaml :=
  match d with
  | YMap m =>
      match m !! key with
      | Some v => ret v
      | None => raise (KeyError key)
      end
  | _ => raise TypeError
  end.

(** [d[key] = v] on a loaded document. *)
Definition setitem (d : yaml) (key : string) (v : yaml) : M yaml :=
  match d with
  | YMap m => ret (YMap (<[key := v]> m))
  | _ => raise TypeError
  end.

(** [sorted] on strings: any sort by the order of the code points gives
    Python's result, that order being total. *)
Definition sorted (l : list string) : list string := merge_sort String.le l.

(** [str(i)] *)
Definition str (i : nat) : string := pretty i.

(** ** The operations of [testbuilder.py] *)

Section Testbuilder.

(** What an external command does to the files: [run dir cmd fs] is the
    file system after the shell has run [cmd] in directory [dir] on [fs].
    Nothing is assumed about it. *)
Variable run : option string → string → gmap string content → gmap string content.

(** [os.system(cmd)]: the command is spawned and awaited; its exit status
    is dropped by every caller. *)
Definition os_system (cmd : string) : M unit :=
  λ w, (Ret (), World (run (cwd w) cmd (files w)) (cwd w) (trace w ++ [System cmd])).

Definition os_chdir (dir : string) : M unit :=
  λ w, (Ret (), World (files w) (Some dir) (trace w ++ [Chdir dir])).

(** *** [clean] *)

Definition clean (model : string) : M unit :=
  print ("Removing spin and test files for " +:+ model);;
  files ← glob_glob "pan";
  trails ← glob_glob (model +:+ "*.trail");
  let files := files ++ trails in
  spns ← glob_glob (model +:+ "*.spn");
  let files := files ++ spns in
  srcs ← (if bool_decide (length trails = 1)
          then glob_glob ("tr-" +:+ model +:+ ".c")
          else glob_glob ("tr-" +:+ model +:+ "-*.c"));
  let files := files ++ srcs in
  for_each files os_remove.

(** *** [zero] *)

Definition zero (modelfile : string) : M unit :=
  print "Zeroing model-0.yml";;
  model0 ← yaml_load modelfile;
  model0 ← setitem model0 "source" (YSeq [YStr "testsuites/validation/ts-model-0.c"]);
  yaml_dump model0 modelfile.

(** *** [generate] *)

(** One readiness check: [if not os.path.isfile(path): print(msg);
    ready = False]. *)
Definition check_file (path msg : string) (ready : bool) : M bool :=
  present ← isfile path;
  if (present : bool) then ret ready else print msg;; ret false.

Definition generate (model testgen : string) : M unit :=
  ready ← check_file (model +:+ ".pml")
            "Promela file does not exist for model" true;
  ready ← check_file (model +:+ "-pre.h")
            "Preconditions file does not exist for model" ready;
  ready ← check_file (model +:+ "-post.h")
            "Postconditions file does not exist for model" ready;
  ready ← check_file (model +:+ "-run.h")
            "Promela file does not exist for model" ready;
  ready ← check_file (model +:+ "-rfn.yml")
            "Refinement file does not exist for model" ready;
  when (negb ready) (exit 1);;
  print ("Generating spin and test files for " +:+ model);;
  os_system ("spin -DTEST_GEN -run -E -c0 -e " +:+ model +:+ ".pml");;
  trails ← glob_glob (model +:+ "*.trail");
  let no_of_trails := length trails in
  when (bool_decide (no_of_trails = 1))
    (os_system ("spin -T -t " +:+ model +:+ ".pml > " +:+ model +:+ ".spn");;
     os_system (testgen +:+ " " +:+ model);;
     exit 0);;
  for_each (seq 0 no_of_trails) (λ i,
    os_system ("spin -T -t" +:+ str (i + 1) +:+ " " +:+ model +:+ ".pml > "
               +:+ model +:+ "-" +:+ str i +:+ ".spn");;
    os_system (testgen +:+ " " +:+ model +:+ " " +:+ str i)).

(** *** [copy] *)

(** [set(source_list)] for the manifest's source list, a sequence of path
    strings; any other value is outside the manifest format and stops the
    operation. *)
Definition source_set_of (source_list : yaml) : M (gset string) :=
  match source_list with
  | YSeq l =>
      match strings_of l with
      | Some paths => ret (list_to_set paths)
      | None => raise TypeError
      end
  | _ => raise TypeError
  end.

(** [for file in files: source_set.add('testsuites/validation/' + file)] *)
Definition add_sources (source_set : gset string) (files : list string) : gset string :=
  foldl (λ s file, s ∪ {["testsuites/validation/" +:+ file]}) source_set files.

(** The body of [copy] is three blocks, each under a comment of its own;
    they are named here after those comments. *)

(** [# Remove old test files] *)
Definition remove_old (model codedir : string) : M unit :=
  print ("Removing old files for model " +:+ model);;
  files ← glob_glob (codedir +:+ "tr-" +:+ model +:+ "*.c");
  more ← glob_glob (codedir +:+ "tr-" +:+ model +:+ "*.h");
  let files := files ++ more in
  more ← glob_glob (codedir +:+ "tc-" +:+ model +:+ "*.c");
  let files := files ++ more in
  for_each files os_remove.

(** [# Copy new test files] *)
Definition copy_new (model rtems : string) : M unit :=
  print ("Copying new files for model " +:+ model);;
  files ← glob_glob ("tr-" +:+ model +:+ "*.c");
  more ← glob_glob ("tr-" +:+ model +:+ "*.h");
  let files := files ++ more in
  more ← glob_glob ("tc-" +:+ model +:+ "*.c");
  let files := files ++ more in
  for_each files (λ file,
    copyfile file (rtems +:+ "testsuites/validation/" +:+ file)).

(** [# Update model-0.yml] *)
Definition update_model0 (model modfile : string) : M unit :=
  print ("Updating model-0.yml for model " +:+ model);;
  model0 ← yaml_load modfile;
  source_list ← getitem model0 "source";
  source_set ← source_set_of source_list;
  files ← glob_glob ("tr-" +:+ model +:+ "*.c");
  more ← glob_glob ("tc-" +:+ model +:+ "*.c");
  let files := files ++ more in
  let source_set := add_sources source_set files in
  let new_list := elements source_set in
  model0 ← setitem model0 "source" (YSeq (YStr <$> sorted new_list));
  yaml_dump model0 modfile.

Definition copy (model codedir rtems modfile : string) : M unit :=
  remove_old model codedir;;
  copy_new model rtems;;
  update_model0 model modfile.

(** *** [main] *)

(** [len(sys.argv) == n and sys.argv[1] == verb] *)
Definition is_call (argv : list string) (n : nat) (verb : string) : bool :=
  bool_decide (length argv = n) && bool_decide (argv !! 1 = Some verb).

(** [sys.argv[1] == verb], evaluated once the usage check has passed. *)
Definition verb_is (argv : list string) (verb : string) : bool :=
  bool_decide (argv !! 1 = Some verb).

Definition arg (argv : list string) (i : nat) : M string :=
  match argv !! i with
  | Some a => ret a
  | None => raise IndexError
  end.

(** A configuration value used as a string.  The script concatenates the
    values with strings; a value of another type is outside the modelled
    inputs and stops the verb that uses it. *)
Definition as_str (v : yaml) : M string :=
  match v with
  | YStr s => ret s
  | _ => raise TypeError
  end.

Definition usage : list string :=
  [ "USAGE:";
    "help - these instructions";
    "clean modelname - remove spin, test files";
    "zero  - remove all tesfiles from RTEMS";
    "generate modelname - generate spin and test files";
    "copy modelname - copy test files and configuration to RTEMS";
    "compile - compiles RTEMS tests";
    "run - runs RTEMS tests" ].

(** [source_dir] is the directory of the script, where its configuration
    and help text are. *)
Definition main (source_dir : string) (argv : list string) : M unit :=
  when (negb (is_call argv 2 "help"
              || is_call argv 3 "clean"
              || is_call argv 2 "zero"
              || is_call argv 3 "generate"
              || is_call argv 3 "copy"
              || is_call argv 2 "compile"
              || is_call argv 2 "run"))
    (for_each usage print;; exit 1);;
  config ← yaml_load (source_dir +:+ "/testbuilder.yml");
  spin2test ← getitem config "spin2test";
  rtems ← getitem config "rtems";
  rsb ← getitem config "rsb";
  simulator ← getitem config "simulator";
  testyaml ← getitem config "testyaml";
  testcode ← getitem config "testcode";
  testexe ← getitem config "testexe";
  when (negb (truthy spin2test && truthy rtems && truthy rsb
              && truthy simulator && truthy testyaml && truthy testexe))
    (print "Please configure testbuilder.yml";; exit 1);;
  when (verb_is argv "help")
    (fs ← get_files;
     match fs !! (source_dir +:+ "/testbuilder.help") with
     | Some c => emit (PrintFile c)
     | None => raise (FileNotFoundError (source_dir +:+ "/testbuilder.help"))
     end);;
  when (verb_is argv "generate")
    (model ← arg argv 2; testgen ← as_str spin2test;
     generate model testgen);;
  when (verb_is argv "clean")
    (model ← arg argv 2; clean model);;
  when (verb_is argv "zero")
    (modelfile ← as_str testyaml; zero modelfile);;
  when (verb_is argv "copy")
    (model ← arg argv 2; codedir ← as_str testcode;
     rtems ← as_str rtems; modfile ← as_str testyaml;
     copy model codedir rtems modfile);;
  when (verb_is argv "compile")
    (rtems ← as_str rtems;
     os_chdir rtems;;
     os_system "./waf configure";;
     os_system "./waf");;
  when (verb_is argv "run")
    (rsb ← as_str rsb; simulator ← as_str simulator; testexe ← as_str testexe;
     os_chdir rsb;;
     let sim_command := simulator +:+ " -leon3 -r s -m 2 " in
     print ("Doing " +:+ sim_command +:+ testexe);;
     os_system (sim_command +:+ testexe)).

(** The status the process ends with: an uncaught exception makes the
    interpreter print a traceback and end with status 1. *)
Definition status {A} (o : outcome A) : Z :=
  match o with
  | Ret _ => 0
  | Exit code => code
  | Raise _ => 1
  end.

End Testbuilder.

(** ** Specification-side vocabulary *)

(** The Readiness Set of a model: each required file with the message
    [generate] prints when it is missing. *)
Definition readiness_set (model : string) : list (string * string) :=
  [ (model +:+ ".pml", "Promela file does not exist for model");
    (model +:+ "-pre.h", "Preconditions file does not exist for model");
    (model +:+ "-post.h", "Postconditions file does not exist for model");
    (model +:+ "-run.h", "Promela file does not exist for model");
    (model +:+ "-rfn.yml", "Refinement file does not exist for model") ].

Definition ready (model : string) (fs : gmap string content) : Prop :=
  Forall (λ pm, is_Some (fs !! pm.1)) (readiness_set model).

(** The messages for the missing files, in the order of the checks. *)
Definition missing_messages (model : string) (fs : gmap string content) : list string :=
  (filter (λ pm, fs !! pm.1 = None) (readiness_set model)).*2.


(** The world after spawning the commands [cmds] one after the other. *)
Definition spawned (run : option string → string → gmap string content → gmap string content)
    (cmds : list string) (w : world) : world :=
  foldl (λ w cmd, World (run (cwd w) cmd (files w)) (cwd w) (trace w ++ [System cmd]))
        w cmds.

(** The number of trail files [generate] finds once the checker has run. *)
Definition trails_after_checker
    (run : option string → string → gmap string content → gmap string content)
    (model : string) (w : world) : nat :=
  length (glob (model +:+ "*.trail")
            (run (cwd w) ("spin -DTEST_GEN -run -E -c0 -e " +:+ model +:+ ".pml") (files w))).

(** *** Vocabulary for patterns *)

(** What [*] may stand for in [pat' ]: the matcher's inner loop. *)
Fixpoint star_of (pat' s : string) : bool :=
  fnmatch false pat' s
  || match s with
     | EmptyString => false
     | String c s' => negb (is_sep c) && star_of pat' s'
     end.

(** A string without the metacharacters of patterns. *)
Fixpoint literal (s : string) : bool :=
  match s with
  | EmptyString => true
  | String c s' =>
      negb (Ascii.eqb c "*") && negb (Ascii.eqb c "?") && negb (Ascii.eqb c "[")
      && literal s'
  end.

(** A string with a path separator. *)
Fixpoint has_sep (s : string) : bool :=
  match s with
  | EmptyString => false
  | String c s' => is_sep c || has_sep s'
  end.

(** Whether the matcher is at the start of a path component after [a]. *)
Fixpoint start_after (b : bool) (a : string) : bool :=
  match a with
  | EmptyString => b
  | String c a' => start_after (is_sep c) a'
  end.

Fixpoint last_char (s : string) : option ascii :=
  match s with
  | EmptyString => None
  | String c EmptyString => Some c
  | String _ s' => last_char s'
  end.

(** *** Vocabulary for the file system *)

(** The file system without the paths of [l]. *)
Definition remove_all (l : list string) (fs : gmap string content) : gmap string content :=
  foldl (λ fs p, delete p fs) fs l.

(** The paths [clean] selects for a model: the scratch binary, the trail
    and summary files, and the test sources by the current number of trail
    files. *)
Definition cleaned (model : string) (fs : gmap string content) (p : string) : Prop :=
  matches "pan" p
  ∨ matches (model +:+ "*.trail") p
  ∨ matches (model +:+ "*.spn") p
  ∨ (if bool_decide (length (glob (model +:+ "*.trail") fs) = 1)
     then matches ("tr-" +:+ model +:+ ".c") p
     else matches ("tr-" +:+ model +:+ "-*.c") p).

(** The file system after copying each file of [l] into directory [dir]. *)
Definition copy_all (dir : string) (l : list string) (fs : gmap string content)
    : gmap string content :=
  foldl (λ fs f, match fs !! f with
                 | Some c => <[dir +:+ f := c]> fs
                 | None => fs
                 end) fs l.

(** The generated files of a model in directory [dir] (a path prefix):
    trail sources, their headers, and test-case sources. *)
Definition artifact (dir model p : string) : Prop :=
  matches (dir +:+ "tr-" +:+ model +:+ "*.c") p
  ∨ matches (dir +:+ "tr-" +:+ model +:+ "*.h") p
  ∨ matches (dir +:+ "tc-" +:+ model +:+ "*.c") p.

(** The generated files of a model that the manifest tracks: the [.c]
    ones. *)
Definition source_artifact (model p : string) : Prop :=
  matches ("tr-" +:+ model +:+ "*.c") p ∨ matches ("tc-" +:+ model +:+ "*.c") p.

(** The source list [copy] writes: the prior list and the files, as a
    sorted set. *)
Definition merged_sources (prior files : list string) : list string :=
  sorted (elements (add_sources (list_to_set prior) files)).

(** A manifest: a YAML mapping whose [source] is a sequence of strings. *)
Definition manifest_at (fs : gmap string content) (path : string)
    (m : gmap string yaml) (sources : list string) : Prop :=
  fs !! path = Some (Yaml (YMap m))
  ∧ m !! "source" = Some (YSeq (YStr <$> sources)).

(** The target directory of [copy] under the tree [rtems]. *)
Definition target_dir (rtems : string) : string :=
  rtems +:+ "testsuites/validation/".

(** The lists [copy] builds: the old files under [dir], the new files of
    the working directory, and the new sources for the manifest. *)
Definition old_files (model dir : string) (fs : gmap string content) : list string :=
  (glob (dir +:+ "tr-" +:+ model +:+ "*.c") fs
     ++ glob (dir +:+ "tr-" +:+ model +:+ "*.h") fs)
    ++ glob (dir +:+ "tc-" +:+ model +:+ "*.c") fs.

Definition new_files (model : string) (fs : gmap string content) : list string :=
  (glob ("tr-" +:+ model +:+ "*.c") fs ++ glob ("tr-" +:+ model +:+ "*.h") fs)
    ++ glob ("tc-" +:+ model +:+ "*.c") fs.

Definition source_files (model : string) (fs : gmap string content) : list string :=
  glob ("tr-" +:+ model +:+ "*.c") fs ++ glob ("tc-" +:+ model +:+ "*.c") fs.

(** The list of paths [clean] builds. *)
Definition clean_list (model : string) (fs : gmap string content) : list string :=
  ((glob "pan" fs ++ glob (model +:+ "*.trail") fs)
     ++ glob (model +:+ "*.spn") fs)
    ++ (if bool_decide (length (glob (model +:+ "*.trail") fs) = 1)
        then glob ("tr-" +:+ model +:+ ".c") fs
        else glob ("tr-" +:+ model +:+ "-*.c") fs).

(** The world the first two blocks of [copy] leave: the old files under
    [dir] removed, the new files copied to the target directory. *)
Definition after_copy (model dir rtems : string) (w : world) : world :=
  let fs1 := remove_all (old_files model dir (files w)) (files w) in
  World (copy_all (target_dir rtems) (new_files model fs1) fs1)
        (cwd w)
        ((trace w ++ [Print ("Removing old files for model " +:+ model)])
           ++ [Print ("Copying new files for model " +:+ model)]).

(** The world [update_model0] leaves on a manifest [m] with sources
    [prior]. *)
Definition updated (model modfile : string) (m : gmap string yaml)
    (prior : list string) (w : world) : world :=
  World (<[modfile :=
             Yaml (YMap (<["source" :=
                YSeq (YStr <$> merged_sources prior (source_files model (files w)))]> m))]>
           (files w))
        (cwd w)
        (trace w ++ [Print ("Updating model-0.yml for model " +:+ model)]).

(** The command lines [main] accepts. *)
Definition valid_call (argv : list string) : bool :=
  is_call argv 2 "help" || is_call argv 3 "clean" || is_call argv 2 "zero"
  || is_call argv 3 "generate" || is_call argv 3 "copy"
  || is_call argv 2 "compile" || is_call argv 2 "run".

(** The fields [main] reads from the configuration. *)
Definition config_fields : list string :=
  ["spin2test"; "rtems"; "rsb"; "simulator"; "testyaml"; "testcode"; "testexe"].

(** The fields whose value [main] tests. *)
Definition tested_fields : list string :=
  ["spin2test"; "rtems"; "rsb"; "simulator"; "testyaml"; "testexe"].

(** The operations that write the manifest. *)
Inductive manifest_write : Type :=
  | ByCopy (model codedir rtems modfile : string)
  | ByZero (modelfile : string).

Definition perform (op : manifest_write) : M unit :=
  match op with
  | ByCopy model codedir rtems modfile => copy model codedir rtems modfile
  | ByZero modelfile => zero modelfile
  end.

Definition manifest_path (op : manifest_write) : string :=
  match op with
  | ByCopy _ _ _ modfile => modfile
  | ByZero modelfile => modelfile
  end.

(** ** Concrete scenarios *)

Module Scenario.

(** A file system of text files. *)
Definition texts (l : list string) : gmap string content :=
  list_to_map ((λ p, (p, Text "")) <$> l).

Definition start (fs : gmap string content) : world := World fs None [].

(** A fake checker for model [m]: it leaves the given trail files. *)
Definition checker (trails : list string)
    : option string → string → gmap string content → gmap string content :=
  λ _ cmd fs,
    if decide (cmd = "spin -DTEST_GEN -run -E -c0 -e m.pml")
    then texts trails ∪ fs else fs.

(** External tools that do nothing. *)
Definition idle : option string → string → gmap string content → gmap string content :=
  λ _ _ fs, fs.

(** The Readiness Set of model [m]. *)
Definition inputs : list string :=
  ["m.pml"; "m-pre.h"; "m-post.h"; "m-run.h"; "m-rfn.yml"].

(** A manifest that tracks three sources, out of order and with a
    duplicate, and holds one more field. *)
Definition manifest : gmap string yaml :=
  <["source" := YSeq [YStr "tr-x.c"; YStr "tc-y.c";
                      YStr "testsuites/validation/ts-model-0.c"; YStr "tc-y.c"]]>
    (<["build-type" := YStr "test-program"]> ∅).

(** A working directory with two trail sources, a header and a test-case
    source of model [m], a manifest in the tree [r/], and a stale source. *)
Definition tree (stale : string) : gmap string content :=
  <["r/model-0.yml" := Yaml (YMap manifest)]>
    (<[stale := Text "old"]>
       (list_to_map [("tr-m-0.c", Text "t0"); ("tr-m-1.c", Text "t1");
                     ("tr-m.h", Text "h"); ("tc-m.c", Text "c")])).

(** The configuration document, by its generator path and its test-source
    directory. *)
Definition config (spin2test testcode : yaml) : yaml :=
  YMap (list_to_map
          [("spin2test", spin2test); ("rtems", YStr "r/"); ("rsb", YStr "rsb/");
           ("simulator", YStr "sis"); ("testyaml", YStr "r/model-0.yml");
           ("testcode", testcode); ("testexe", YStr "ts-model-0.exe")]).

(** The script installed in directory [s], next to its configuration. *)
Definition installed (spin2test testcode : yaml) : world :=
  start (<["s/testbuilder.yml" := Yaml (config spin2test testcode)]> (tree "old.c")).

End Scenario.


(** ** Vocabulary for the configuration *)

(** The seven settings of [testbuilder.yml]. *)
Record settings : Type := Settings {
  spin2test : string;
  rtems : string;
  rsb : string;
  simulator : string;
  testyaml : string;
  testcode : string;
  testexe : string
}.

(** The configuration document holds the settings [c], as strings. *)
Definition holds (cfg : gmap string yaml) (c : settings) : Prop :=
  cfg !! "spin2test" = Some (YStr (spin2test c))
  ∧ cfg !! "rtems" = Some (YStr (rtems c))
  ∧ cfg !! "rsb" = Some (YStr (rsb c))
  ∧ cfg !! "simulator" = Some (YStr (simulator c))
  ∧ cfg !! "testyaml" = Some (YStr (testyaml c))
  ∧ cfg !! "testcode" = Some (YStr (testcode c))
  ∧ cfg !! "testexe" = Some (YStr (testexe c)).

(** The settings [main] tests are not empty. *)
Definition tested_nonempty (c : settings) : Prop :=
  spin2test c ≠ "" ∧ rtems c ≠ "" ∧ rsb c ≠ "" ∧ simulator c ≠ ""
  ∧ testyaml c ≠ "" ∧ testexe c ≠ "".

Module Installation.

(** Settings of an installation, and their document. *)
Definition paths : settings :=
  Settings "spin2test" "r/" "rsb/" "sis" "r/model-0.yml"
    "r/testsuites/validation/" "ts-model-0.exe".

Definition document : gmap string yaml :=
  list_to_map
    [("spin2test", YStr "spin2test"); ("rtems", YStr "r/"); ("rsb", YStr "rsb/");
     ("simulator", YStr "sis"); ("testyaml", YStr "r/model-0.yml");
     ("testcode", YStr "r/testsuites/validation/");
     ("testexe", YStr "ts-model-0.exe")].

(** The script in directory [s] with its configuration [cfg], in the tree
    of the scenarios. *)
Definition world_of (cfg : yaml) : world :=
  Scenario.start (<["s/testbuilder.yml" := Yaml cfg]> (Scenario.tree "old.c")).

End Installation.
(** * Proofs *)

Ltac munfold :=
  unfold mbind, M_bind, mret, M_ret, bind, ret, when, exit, raise, print, emit,
         glob_glob, isfile, get_files, put_files in *.

Section MonadFacts.
Context {A B : Type}.

Lemma bind_Ret (m : M A) (k : A → M B) w a w1 :
  m w = (Ret a, w1) → (m ≫= k) w = k a w1.
Proof. munfold. by intros ->. Qed.

Lemma bind_inv (m : M A) (k : A → M B) w b w' :
  (m ≫= k) w = (Ret b, w') →
  ∃ a w1, m w = (Ret a, w1) ∧ k a w1 = (Ret b, w').
Proof.
  munfold. destruct (m w) as [[a|c|e] w1]; intros H; try discriminate.
  by exists a, w1.
Qed.
End MonadFacts.

Section GenerateFacts.
Variable run : option string → string → gmap string content → gmap string content.

Lemma check_file_present path msg r w :
  is_Some (files w !! path) → check_file path msg r w = (Ret r, w).
Proof.
  intros H. unfold check_file. munfold. simpl.
  by rewrite bool_decide_eq_true_2.
Qed.

Lemma check_file_absent path msg r w :
  files w !! path = None →
  check_file path msg r w
  = (Ret false, World (files w) (cwd w) (trace w ++ [Print msg])).
Proof.
  intros H. unfold check_file. munfold. simpl.
  rewrite bool_decide_eq_false_2; [done|]. rewrite H. by intros [? ?].
Qed.

Lemma ready_checks model testgen w :
  ready model (files w) →
  generate run model testgen w =
  (print ("Generating spin and test files for " +:+ model);;
   os_system run ("spin -DTEST_GEN -run -E -c0 -e " +:+ model +:+ ".pml");;
   trails ← glob_glob (model +:+ "*.trail");
   let no_of_trails := length trails in
   when (bool_decide (no_of_trails = 1))
     (os_system run ("spin -T -t " +:+ model +:+ ".pml > " +:+ model +:+ ".spn");;
      os_system run (testgen +:+ " " +:+ model);;
      exit 0);;
   for_each (seq 0 no_of_trails) (λ i,
     os_system run ("spin -T -t" +:+ str (i + 1) +:+ " " +:+ model +:+ ".pml > "
                +:+ model +:+ "-" +:+ str i +:+ ".spn");;
     os_system run (testgen +:+ " " +:+ model +:+ " " +:+ str i))) w.
Proof.
  intros Hr. unfold generate.
  assert (∀ path msg, (path, msg) ∈ readiness_set model → ∀ r,
            check_file path msg r w = (Ret r, w)) as Hc.
  { intros path msg Hin r. apply check_file_present.
    unfold ready in Hr. rewrite Forall_forall in Hr. by apply (Hr (path, msg)). }
  unfold readiness_set in Hc.
  do 5 (erewrite bind_Ret; [|apply Hc; set_solver]).
  reflexivity.
Qed.
End GenerateFacts.

Section GenerateTheorems.
Variable run : option string → string → gmap string content → gmap string content.

Lemma spawned_trace cmds w :
  trace (spawned run cmds w) = trace w ++ (System <$> cmds).
Proof.
  revert w. induction cmds as [|c cmds IH]; intros w; simpl.
  - by rewrite app_nil_r.
  - rewrite IH. simpl. by rewrite <- app_assoc.
Qed.

(** The loop of [generate] spawns two commands per index. *)
Lemma for_each_spawn (f g : nat → string) l w :
  for_each l (λ i, os_system run (f i);; os_system run (g i)) w
  = (Ret (), spawned run (i ← l; [f i; g i]) w).
Proof.
  revert w. induction l as [|i l IH]; intros w; [done|].
  simpl. munfold. unfold os_system at 1 2. simpl. by rewrite IH.
Qed.

Lemma indices_shift {A} (h : nat → nat → list A) n :
  (i ← seq 0 n; h (i + 1) i) = (i ← seq 1 n; h i (i - 1)).
Proof.
  rewrite <- fmap_S_seq. generalize (seq 0 n). intros l.
  induction l as [|i l IH]; [done|].
  rewrite fmap_cons, !bind_cons, IH. f_equal.
  replace (i + 1) with (S i) by lia. by replace (S i - 1) with i by lia.
Qed.

(** What [generate] does once the Readiness Set is complete, by the number
    [n] of trail files the checker left. *)
Lemma generate_ready model testgen w :
  ready model (files w) →
  let n := trails_after_checker run model w in
  let w1 := spawned run ["spin -DTEST_GEN -run -E -c0 -e " +:+ model +:+ ".pml"]
              (World (files w) (cwd w)
                 (trace w ++ [Print ("Generating spin and test files for " +:+ model)])) in
  generate run model testgen w =
  if bool_decide (n = 1) then
    (Exit 0, spawned run ["spin -T -t " +:+ model +:+ ".pml > " +:+ model +:+ ".spn";
                          testgen +:+ " " +:+ model] w1)
  else
    (Ret (), spawned run
               (i ← seq 1 n;
                ["spin -T -t" +:+ str i +:+ " " +:+ model +:+ ".pml > "
                   +:+ model +:+ "-" +:+ str (i - 1) +:+ ".spn";
                 testgen +:+ " " +:+ model +:+ " " +:+ str (i - 1)]) w1).
Proof.
  intros Hr n w1. rewrite ready_checks by done.
  unfold trails_after_checker in n.
  do 3 (erewrite bind_Ret by reflexivity). simpl. fold n.
  destruct (bool_decide (n = 1)) eqn:Hn.
  - reflexivity.
  - erewrite bind_Ret by reflexivity. rewrite for_each_spawn. fold w1.
    by rewrite (indices_shift (λ j i,
      ["spin -T -t" +:+ str j +:+ " " +:+ model +:+ ".pml > "
         +:+ model +:+ "-" +:+ str i +:+ ".spn";
       testgen +:+ " " +:+ model +:+ " " +:+ str i])).
Qed.
End GenerateTheorems.

Section ReadinessFacts.
Variable run : option string → string → gmap string content → gmap string content.

(** With a file of the Readiness Set missing, all five checks still run,
    one message is printed per missing file, and the operation exits with
    status 1 without spawning anything. *)
Lemma generate_not_ready model testgen w :
  ¬ ready model (files w) →
  generate run model testgen w
  = (Exit 1, World (files w) (cwd w)
               (trace w ++ (Print <$> missing_messages model (files w)))).
Proof.
  intros Hnr. unfold generate, missing_messages.
  assert (∀ path msg r w', files w' = files w →
            check_file path msg r w'
            = match files w !! path with
              | Some _ => (Ret r, w')
              | None => (Ret false, World (files w') (cwd w') (trace w' ++ [Print msg]))
              end) as Hc.
  { intros path msg r w' Hw'. destruct (files w !! path) eqn:Hp.
    - apply check_file_present. rewrite Hw', Hp. eauto.
    - apply check_file_absent. by rewrite Hw'. }
  unfold ready, readiness_set in Hnr.
  rewrite !Forall_cons, Forall_nil in Hnr. simpl in Hnr.
  unfold readiness_set. rewrite !filter_cons, filter_nil. simpl.
  destruct w as [fs d tr]. simpl in *.
  repeat match goal with
  | |- context [fs !! ?p] =>
      let H := fresh "H" in
      destruct (fs !! p) eqn:H;
      (erewrite bind_Ret; [|rewrite Hc by done; rewrite H; reflexivity]); simpl
  end;
  repeat case_decide; try done; try (exfalso; apply Hnr; eauto 10; fail);
  simpl; rewrite <- ?app_assoc; try reflexivity.
  all: try (by rewrite app_nil_r).
Qed.
End ReadinessFacts.

(** ** Strings and patterns *)

Section StringFacts.
Implicit Types a b c s : string.

Lemma app_nil_s s : "" +:+ s = s.
Proof. done. Qed.

Lemma app_cons_s x a b : String x a +:+ b = String x (a +:+ b).
Proof. done. Qed.

Lemma app_assoc_s a b c : (a +:+ b) +:+ c = a +:+ (b +:+ c).
Proof. induction a as [|x a IH]; [done|]. by rewrite !app_cons_s, IH. Qed.

Lemma last_char_app a x b : last_char (a +:+ String x b) = last_char (String x b).
Proof.
  induction a as [|y a IH]; [done|].
  rewrite app_cons_s. simpl. rewrite IH. by destruct a.
Qed.

Lemma has_sep_app a b : has_sep (a +:+ b) = has_sep a || has_sep b.
Proof.
  induction a as [|x a IH]; [done|]. rewrite app_cons_s. simpl.
  by rewrite IH, orb_assoc.
Qed.

Lemma literal_cons x a :
  literal (String x a) = true →
  Ascii.eqb x "*" = false ∧ Ascii.eqb x "?" = false ∧ literal a = true.
Proof.
  simpl. intros H. apply andb_prop in H as [H Ha].
  apply andb_prop in H as [H _]. apply andb_prop in H as [H1 H2].
  by apply negb_true_iff in H1, H2.
Qed.

Lemma literal_app a b : literal (a +:+ b) = literal a && literal b.
Proof.
  induction a as [|x a IH]; [done|]. rewrite app_cons_s. simpl. rewrite IH.
  by rewrite !andb_assoc.
Qed.

Lemma start_after_app f a b :
  start_after f (a +:+ b) = start_after (start_after f a) b.
Proof.
  revert f. induction a as [|x a IH]; intros f; [done|].
  rewrite app_cons_s. simpl. apply IH.
Qed.

End StringFacts.

Section FnmatchFacts.
Implicit Types pat name : string.

Lemma fnmatch_nil b name : fnmatch b "" name = true ↔ name = "".
Proof. destruct name; simpl; naive_solver. Qed.

Lemma fnmatch_star b pat name :
  fnmatch b (String "*" pat) name
  = if b && hidden name then false else star_of pat name.
Proof.
  simpl. destruct (b && hidden name); [done|].
  induction name as [|c name IH]; simpl; [done|]. by rewrite IH.
Qed.

Lemma fnmatch_query b pat name :
  fnmatch b (String "?" pat) name
  = match name with
    | EmptyString => false
    | String c s' =>
        negb (is_sep c) && negb (b && Ascii.eqb c ".") && fnmatch false pat s'
    end.
Proof. done. Qed.

Lemma fnmatch_char b p pat name :
  Ascii.eqb p "*" = false → Ascii.eqb p "?" = false →
  fnmatch b (String p pat) name
  = match name with
    | EmptyString => false
    | String c s' => Ascii.eqb p c && fnmatch (is_sep p) pat s'
    end.
Proof. intros H1 H2. simpl. by rewrite H1, H2. Qed.

(** Case analysis on the head of a pattern. *)
Lemma pattern_head (p : ascii) :
  p = "*"%char ∨ p = "?"%char
  ∨ (Ascii.eqb p "*" = false ∧ Ascii.eqb p "?" = false).
Proof.
  destruct (Ascii.eqb p "*") eqn:H1; [left; by apply Ascii.eqb_eq|].
  destruct (Ascii.eqb p "?") eqn:H2; [right; left; by apply Ascii.eqb_eq|].
  by right; right.
Qed.

Lemma star_of_unfold pat s :
  star_of pat s
  = fnmatch false pat s
    || match s with
       | EmptyString => false
       | String c s' => negb (is_sep c) && star_of pat s'
       end.
Proof. by destruct s. Qed.

(** A literal pattern matches itself only. *)
Lemma fnmatch_literal b z name :
  literal z = true → fnmatch b z name = true → name = z.
Proof.
  revert b name. induction z as [|c z IH]; intros b name Hl Hm.
  - by apply fnmatch_nil in Hm.
  - apply literal_cons in Hl as (H1 & H2 & Hz).
    rewrite fnmatch_char in Hm by done.
    destruct name as [|x name]; [done|].
    apply andb_prop in Hm as [Hx Hm]. apply Ascii.eqb_eq in Hx as ->.
    f_equal. by eapply IH.
Qed.

(** A pattern that ends with a literal matches only names that end with
    it. *)
Lemma fnmatch_suffix b pat z name :
  literal z = true → fnmatch b (pat +:+ z) name = true →
  ∃ y, name = y +:+ z.
Proof.
  intros Hz. revert b name.
  induction pat as [|p pat IH]; intros b name Hm.
  - exists "". rewrite app_nil_s in *. by eapply fnmatch_literal.
  - rewrite app_cons_s in Hm.
    destruct (pattern_head p) as [->|[->|[H1 H2]]].
    + rewrite fnmatch_star in Hm.
      destruct (b && hidden name); [done|].
      clear b. induction name as [|x name IHn].
      * rewrite star_of_unfold in Hm. rewrite orb_false_r in Hm. by eapply IH.
      * rewrite star_of_unfold in Hm. apply orb_prop in Hm as [Hm|Hm].
        { by eapply IH. }
        apply andb_prop in Hm as [_ Hm].
        destruct (IHn Hm) as [y ->]. by exists (String x y).

    + rewrite fnmatch_query in Hm. destruct name as [|x name]; [done|].
      apply andb_prop in Hm as [_ Hm].
      destruct (IH _ _ Hm) as [y ->]. by exists (String x y).
    + rewrite fnmatch_char in Hm by done. destruct name as [|x name]; [done|].
      apply andb_prop in Hm as [_ Hm].
      destruct (IH _ _ Hm) as [y ->]. by exists (String x y).
Qed.

(** A pattern that starts with a literal matches only names that start
    with it, and their rest matches the rest of the pattern. *)
Lemma fnmatch_prefix b a pat name :
  literal a = true →
  fnmatch b (a +:+ pat) name = true ↔
  ∃ y, name = a +:+ y ∧ fnmatch (start_after b a) pat y = true.
Proof.
  revert b name. induction a as [|c a IH]; intros b name Hl.
  - split; [by exists name|]. intros (y & Hy & Hm).
    rewrite app_nil_s in Hy. by subst.
  - apply literal_cons in Hl as (H1 & H2 & Ha).
    rewrite app_cons_s, fnmatch_char by done.
    destruct name as [|x name].
    { split; [done|]. by intros (y & ? & _). }
    rewrite andb_true_iff, Ascii.eqb_eq, IH by done.
    split.
    + intros [-> (y & -> & Hy)]. by exists y.
    + intros (y & Heq & Hy). rewrite app_cons_s in Heq.
      injection Heq as E1 E2. subst. split; [done|]. by exists y.
Qed.

(** Wildcards do not run over separators. *)
Lemma fnmatch_no_sep b pat name :
  has_sep pat = false → fnmatch b pat name = true → has_sep name = false.
Proof.
  revert b name. induction pat as [|p pat IH]; intros b name Hp Hm.
  - by apply fnmatch_nil in Hm as ->.
  - simpl in Hp. apply orb_false_elim in Hp as [Hp Hpat].
    destruct (pattern_head p) as [->|[->|[H1 H2]]].
    + rewrite fnmatch_star in Hm. destruct (b && hidden name); [done|].
      clear b. induction name as [|x name IHn]; [done|].
      rewrite star_of_unfold in Hm. apply orb_prop in Hm as [Hm|Hm].
      { by eapply IH. }
      apply andb_prop in Hm as [Hx Hm]. simpl.
      apply negb_true_iff in Hx. rewrite Hx. simpl. by apply IHn.
    + rewrite fnmatch_query in Hm. destruct name as [|x name]; [done|].
      apply andb_prop in Hm as [Hx Hm]. apply andb_prop in Hx as [Hx _].
      simpl. apply negb_true_iff in Hx. rewrite Hx. simpl. by eapply IH.
    + rewrite fnmatch_char in Hm by done. destruct name as [|x name]; [done|].
      apply andb_prop in Hm as [Hx Hm]. apply Ascii.eqb_eq in Hx as <-.
      simpl. rewrite Hp. simpl. by eapply IH.
Qed.

Lemma fnmatch_has_sep b pat name :
  has_sep pat = true → fnmatch b pat name = true → has_sep name = true.
Proof.
  revert b name. induction pat as [|p pat IH]; intros b name Hp Hm; [done|].
  destruct (pattern_head p) as [->|[->|[H1 H2]]].
  - simpl in Hp. rewrite fnmatch_star in Hm. destruct (b && hidden name); [done|].
    clear b. induction name as [|x name IHn].
    + rewrite star_of_unfold, orb_false_r in Hm. by eapply IH.
    + rewrite star_of_unfold in Hm. apply orb_prop in Hm as [Hm|Hm].
      { by eapply IH. }
      apply andb_prop in Hm as [Hx Hm]. simpl. rewrite IHn by done.
      by rewrite orb_true_r.
  - simpl in Hp. rewrite fnmatch_query in Hm. destruct name as [|x name]; [done|].
    apply andb_prop in Hm as [Hx Hm]. simpl. erewrite IH by done.
    by rewrite orb_true_r.
  - rewrite fnmatch_char in Hm by done. destruct name as [|x name]; [done|].
    apply andb_prop in Hm as [Hx Hm]. apply Ascii.eqb_eq in Hx as <-.
    simpl in *. destruct (is_sep p); [done|]. simpl in *. by eapply IH.
Qed.

(** Any string, taken as a pattern, matches itself as a prefix: a
    wildcard character in it stands for itself. *)
Lemma fnmatch_self_prefix b t pat name :
  fnmatch (start_after b t) pat name = true →
  fnmatch b (t +:+ pat) (t +:+ name) = true.
Proof.
  revert b. induction t as [|c t IH]; intros b Hm; [done|].
  rewrite !app_cons_s. simpl in Hm.
  destruct (pattern_head c) as [->|[->|[H1 H2]]].
  - rewrite fnmatch_star. simpl hidden. rewrite andb_false_r.
    rewrite star_of_unfold. simpl negb. rewrite andb_true_l.
    rewrite (star_of_unfold _ (t +:+ name)).
    rewrite (IH false) by done. by rewrite orb_true_r.
  - rewrite fnmatch_query. simpl. rewrite andb_false_r. simpl. by apply IH.
  - rewrite fnmatch_char by done. rewrite Ascii.eqb_refl. simpl. by apply IH.
Qed.
End FnmatchFacts.

(** ** Globbing and removal *)

Section GlobFacts.
Context {A : Type}.
Implicit Types fs : gmap string A.

Lemma elem_of_glob pat fs p :
  p ∈ glob pat fs ↔ matches pat p ∧ is_Some (fs !! p).
Proof.
  unfold glob. by rewrite list_elem_of_filter, elem_of_elements, elem_of_dom.
Qed.

Lemma NoDup_glob pat fs : NoDup (glob pat fs).
Proof. apply NoDup_filter, NoDup_elements. Qed.

(** The result of [glob] depends on the names present only. *)
Lemma glob_dom {B} pat fs (fs' : gmap string B) :
  dom fs = dom fs' → glob pat fs = glob pat fs'.
Proof. unfold glob. by intros ->. Qed.
End GlobFacts.

Section RemoveFacts.
Implicit Types fs : gmap string content.

Lemma lookup_remove_all l fs p :
  remove_all l fs !! p = if decide (p ∈ l) then None else fs !! p.
Proof.
  unfold remove_all. revert fs. induction l as [|q l IH]; intros fs.
  - case_decide as Hp; [|done]. by apply not_elem_of_nil in Hp.
  - simpl. rewrite IH. destruct (decide (p = q)) as [->|Hne].
    + rewrite lookup_delete_eq.
      destruct (decide (q ∈ q :: l)) as [_|Hn]; [|set_solver].
      by destruct (decide (q ∈ l)).
    + rewrite lookup_delete_ne by done.
      destruct (decide (p ∈ l)) as [H1|H1], (decide (p ∈ q :: l)) as [H2|H2];
        try done.
      * exfalso. apply H2. by right.
      * exfalso. apply elem_of_cons in H2 as [?|?]; done.
Qed.

Lemma for_each_remove l w :
  NoDup l → (∀ p, p ∈ l → is_Some (files w !! p)) →
  for_each l os_remove w
  = (Ret (), World (remove_all l (files w)) (cwd w) (trace w)).
Proof.
  revert w. induction l as [|q l IH]; intros w Hnd Hin.
  - by destruct w.
  - apply NoDup_cons in Hnd as [Hq Hnd].
    destruct (Hin q) as [c Hc]; [set_solver|].
    simpl. erewrite bind_Ret; last first.
    { unfold os_remove. erewrite bind_Ret by reflexivity. by rewrite Hc. }
    rewrite IH; [done|done|]. simpl. intros p Hp.
    rewrite lookup_delete_ne by set_solver. apply Hin. set_solver.
Qed.
End RemoveFacts.

(** ** Names by their endings *)

Section Endings.
Lemma matches_last b pat c z p :
  literal (String c z) = true → fnmatch b (pat +:+ String c z) p = true →
  last_char p = last_char (String c z).
Proof.
  intros Hl Hm. destruct (fnmatch_suffix _ _ _ _ Hl Hm) as [y ->].
  apply last_char_app.
Qed.

Lemma trail_last b model p :
  fnmatch b (model +:+ "*.trail") p = true → last_char p = Some "l"%char.
Proof.
  change "*.trail" with ("*" +:+ ".trail"). rewrite <- app_assoc_s.
  by apply matches_last.
Qed.

Lemma spn_ending b model p :
  fnmatch b (model +:+ "*.spn") p = true → ∃ y, p = y +:+ ".spn".
Proof.
  change "*.spn" with ("*" +:+ ".spn"). rewrite <- app_assoc_s.
  by apply fnmatch_suffix.
Qed.

Lemma spn_last b model p :
  fnmatch b (model +:+ "*.spn") p = true → last_char p = Some "n"%char.
Proof. intros [y ->]%spn_ending. apply last_char_app. Qed.

Lemma c_last b x p :
  fnmatch b (x +:+ ".c") p = true → last_char p = Some "c"%char.
Proof. by apply matches_last. Qed.

Lemma pan_only b p : fnmatch b "pan" p = true → p = "pan".
Proof. by apply fnmatch_literal. Qed.

Lemma pan_not_spn y : "pan" ≠ y +:+ ".spn".
Proof.
  destruct y as [|? [|? [|? [|? y]]]]; try done.
Qed.
End Endings.

(** ** [clean] *)

Section CleanFacts.
Variable model : string.
Implicit Types fs : gmap string content.

Lemma elem_of_clean_list fs p :
  p ∈ clean_list model fs ↔ cleaned model fs p ∧ is_Some (fs !! p).
Proof.
  unfold clean_list, cleaned. rewrite !elem_of_app.
  destruct (bool_decide _); rewrite !elem_of_glob; tauto.
Qed.

Lemma src_last fs p :
  p ∈ (if bool_decide (length (glob (model +:+ "*.trail") fs) = 1)
       then glob ("tr-" +:+ model +:+ ".c") fs
       else glob ("tr-" +:+ model +:+ "-*.c") fs) →
  last_char p = Some "c"%char.
Proof.
  destruct (bool_decide _); intros [Hm _]%elem_of_glob; unfold matches in Hm.
  - rewrite <- app_assoc_s in Hm. by eapply c_last.
  - change "-*.c" with ("-*" +:+ ".c") in Hm.
    rewrite <- !app_assoc_s in Hm. by eapply c_last.
Qed.

(** No path is selected twice, so no removal fails. *)
Lemma NoDup_clean_list fs : NoDup (clean_list model fs).
Proof.
  unfold clean_list. rewrite !NoDup_app. repeat split.
  - apply NoDup_glob.
  - intros p [Hp _]%elem_of_glob [Ht _]%elem_of_glob.
    apply pan_only in Hp as ->. by apply trail_last in Ht.
  - apply NoDup_glob.
  - intros p [[Hp _]%elem_of_glob|[Hp _]%elem_of_glob]%elem_of_app
      [Hs _]%elem_of_glob.
    + apply pan_only in Hp as ->. apply spn_ending in Hs as [y Hy].
      by apply pan_not_spn in Hy.
    + apply trail_last in Hp. apply spn_last in Hs. congruence.
  - apply NoDup_glob.
  - intros p Hp Hc%src_last.
    apply elem_of_app in Hp as [Hp|[Hp _]%elem_of_glob].
    apply elem_of_app in Hp as [[Hp _]%elem_of_glob|[Hp _]%elem_of_glob].
    + by apply pan_only in Hp as ->.
    + apply trail_last in Hp. congruence.
    + apply spn_last in Hp. congruence.
  - destruct (bool_decide _); apply NoDup_glob.
Qed.

Lemma clean_run w :
  clean model w
  = (Ret (), World (remove_all (clean_list model (files w)) (files w)) (cwd w)
               (trace w ++ [Print ("Removing spin and test files for " +:+ model)])).
Proof.
  pose proof (NoDup_clean_list (files w)) as Hnd.
  assert (∀ p, p ∈ clean_list model (files w) → is_Some (files w !! p)) as Hin.
  { by intros p [_ Hp]%elem_of_clean_list. }
  unfold clean, clean_list in *.
  do 4 (erewrite bind_Ret by reflexivity). simpl in *.
  destruct (bool_decide _);
    (erewrite bind_Ret by reflexivity); simpl; by rewrite for_each_remove.
Qed.

Lemma clean_removed w w' p :
  clean model w = (Ret (), w') → cleaned model (files w) p →
  files w' !! p = None.
Proof.
  rewrite clean_run. intros [= <-] Hp. simpl.
  rewrite lookup_remove_all. case_decide as Hin; [done|].
  destruct (files w !! p) eqn:Hf; [|done].
  exfalso. apply Hin, elem_of_clean_list. split; [done|]. by rewrite Hf.
Qed.

Lemma clean_kept w w' p :
  clean model w = (Ret (), w') → ¬ cleaned model (files w) p →
  files w' !! p = files w !! p.
Proof.
  rewrite clean_run. intros [= <-] Hp. simpl.
  rewrite lookup_remove_all. case_decide as Hin; [|done].
  by apply elem_of_clean_list in Hin as [Hin _].
Qed.
End CleanFacts.

(** ** Directory and base name of a matched path *)

Section SplitFacts.
Implicit Types t q p d f : string.

Lemma start_after_nonempty b d :
  start_after false d = true → start_after b d = true.
Proof. by destruct d. Qed.

Lemma start_after_has_sep b d :
  d ≠ "" → start_after b d = true → has_sep d = true.
Proof.
  revert b. induction d as [|x d IH]; intros b Hne Hs; [done|].
  simpl in *. destruct d as [|y d].
  - simpl in Hs. by rewrite Hs.
  - rewrite (IH (is_sep x)) by done. by rewrite orb_true_r.
Qed.

(** A pattern whose last component is [q] matches a path by matching its
    last component with [q]. *)
Lemma fnmatch_split b t q p :
  has_sep q = false → start_after b t = true →
  fnmatch b (t +:+ q) p = true →
  ∃ d f, p = d +:+ f ∧ fnmatch true q f = true ∧ start_after b d = true.
Proof.
  intros Hq. revert b p. induction t as [|c t IH]; intros b p Ht Hm.
  - simpl in Ht. subst b. by exists "", p.
  - rewrite app_cons_s in Hm. simpl in Ht.
    destruct (pattern_head c) as [->|[->|[H1 H2]]].
    + rewrite fnmatch_star in Hm. destruct (b && hidden p); [done|].
      simpl in Ht.
      assert (∃ d f, p = d +:+ f ∧ fnmatch true q f = true
                     ∧ start_after false d = true) as (d & f & -> & Hf & Hd).
      { clear b. induction p as [|x p IHp].
        - rewrite star_of_unfold, orb_false_r in Hm. by apply IH.
        - rewrite star_of_unfold in Hm. apply orb_prop in Hm as [Hm|Hm].
          { by apply IH. }
          apply andb_prop in Hm as [Hx Hm]. apply negb_true_iff in Hx.
          destruct (IHp Hm) as (d & f & -> & Hf & Hd).
          exists (String x d), f. rewrite app_cons_s. simpl. by rewrite Hx. }
      exists d, f. eauto using start_after_nonempty.
    + rewrite fnmatch_query in Hm. destruct p as [|x p]; [done|].
      apply andb_prop in Hm as [Hx Hm]. apply andb_prop in Hx as [Hx _].
      apply negb_true_iff in Hx. simpl in Ht.
      destruct (IH _ _ Ht Hm) as (d & f & -> & Hf & Hd).
      exists (String x d), f. rewrite app_cons_s. simpl. by rewrite Hx.
    + rewrite fnmatch_char in Hm by done. destruct p as [|x p]; [done|].
      apply andb_prop in Hm as [Hx Hm]. apply Ascii.eqb_eq in Hx as <-.
      destruct (IH _ _ Ht Hm) as (d & f & -> & Hf & Hd).
      exists (String c d), f. by rewrite app_cons_s.
Qed.

(** The split of a path into directory and base name is unique. *)
Lemma split_unique b d f d' f' :
  has_sep f = false → has_sep f' = false →
  start_after b d = true → start_after b d' = true →
  d +:+ f = d' +:+ f' → f = f'.
Proof.
  intros Hf Hf'. revert b d'.
  induction d as [|x d IH]; intros b d' Hd Hd' Heq.
  - destruct d' as [|x' d']; [done|]. exfalso.
    rewrite app_nil_s in Heq. subst f.
    apply start_after_has_sep in Hd'; [|done].
    by rewrite has_sep_app, Hd' in Hf.
  - destruct d' as [|x' d'].
    + exfalso. rewrite app_nil_s in Heq. subst f'.
      apply start_after_has_sep in Hd; [|done].
      by rewrite has_sep_app, Hd in Hf'.
    + rewrite !app_cons_s in Heq. injection Heq as E1 E2. subst x'.
      by apply (IH (is_sep x) d').
Qed.

(** Two patterns under one directory pattern, with base-name patterns
    that start with different literals, match no common path. *)
Lemma fnmatch_split_disjoint b t a a' q q' p :
  literal a = true → literal a' = true →
  has_sep (a +:+ q) = false → has_sep (a' +:+ q') = false →
  String.length a = String.length a' → a ≠ a' →
  start_after b t = true →
  fnmatch b (t +:+ a +:+ q) p = true →
  fnmatch b (t +:+ a' +:+ q') p = true → False.
Proof.
  intros Hl Hl' Hs Hs' Hlen Hne Ht Hm Hm'.
  destruct (fnmatch_split _ _ _ _ Hs Ht Hm) as (d & f & -> & Hf & Hd).
  destruct (fnmatch_split _ _ _ _ Hs' Ht Hm') as (d' & f' & Heq & Hf' & Hd').
  assert (f = f') as <-.
  { eapply split_unique; [| |exact Hd|exact Hd'|exact Heq].
    - eapply fnmatch_no_sep; [exact Hs|exact Hf].
    - eapply fnmatch_no_sep; [exact Hs'|exact Hf']. }
  apply fnmatch_prefix in Hf as (y & -> & _); [|done].
  apply fnmatch_prefix in Hf' as (y' & Hy & _); [|done].
  clear -Hy Hlen Hne. revert a' Hy Hlen Hne.
  induction a as [|x a IH]; intros [|x' a'] Hy Hlen Hne; try done.
  rewrite !app_cons_s in Hy. injection Hy as E1 E2. subst x'.
  apply (IH a'); [done|by injection Hlen|congruence].
Qed.
End SplitFacts.

(** ** Sorting and the source list *)

Section SourceFacts.
Implicit Types l prior : list string.

Lemma strings_of_YStr l : strings_of (YStr <$> l) = Some l.
Proof.
  induction l as [|x l IH]; [done|].
  rewrite fmap_cons. cbn [strings_of]. by rewrite IH.
Qed.

Lemma strings_of_Some ys l : strings_of ys = Some l → ys = YStr <$> l.
Proof.
  revert l. induction ys as [|y ys IH]; intros l H; simpl in H.
  - by injection H as <-.
  - destruct y; try done. destruct (strings_of ys) as [l'|]; [|done].
    injection H as <-. simpl. f_equal. by apply IH.
Qed.

Lemma sorted_Permutation l : sorted l ≡ₚ l.
Proof. apply merge_sort_Permutation. Qed.

Lemma Sorted_sorted l : Sorted String.le (sorted l).
Proof. apply (Sorted_merge_sort String.le). Qed.

Lemma NoDup_sorted l : NoDup l → NoDup (sorted l).
Proof. intros H. by rewrite sorted_Permutation. Qed.

Lemma elem_of_sorted x l : x ∈ sorted l ↔ x ∈ l.
Proof. by rewrite sorted_Permutation. Qed.

Lemma elem_of_add_sources (S : gset string) l x :
  x ∈ add_sources S l ↔ x ∈ S ∨ ∃ f, f ∈ l ∧ x = "testsuites/validation/" +:+ f.
Proof.
  unfold add_sources. revert S. induction l as [|f l IH]; intros S; simpl.
  - split; [auto|]. intros [?|(f & Hf & _)]; [done|]. by apply not_elem_of_nil in Hf.
  - rewrite IH. rewrite elem_of_union, elem_of_singleton. split.
    + intros [[Hx | ->]|(g & Hg & ->)].
      * by left.
      * right. exists f. split; [left|done].
      * right. exists g. split; [by right|done].
    + intros [?|(g & Hg & ->)]; [by left; left|].
      apply elem_of_cons in Hg as [->|Hg]; [by left; right|].
      right. by exists g.
Qed.

Lemma NoDup_merged prior l : NoDup (merged_sources prior l).
Proof. apply NoDup_sorted, NoDup_elements. Qed.

Lemma Sorted_merged prior l : Sorted String.le (merged_sources prior l).
Proof. apply Sorted_sorted. Qed.

Lemma elem_of_merged prior l x :
  x ∈ merged_sources prior l
  ↔ x ∈ prior ∨ ∃ f, f ∈ l ∧ x = "testsuites/validation/" +:+ f.
Proof.
  unfold merged_sources.
  by rewrite elem_of_sorted, elem_of_elements, elem_of_add_sources,
    elem_of_list_to_set.
Qed.

(** The written list depends on the sets of its inputs only. *)
Lemma merged_sources_ext prior prior' l l' :
  (∀ x, x ∈ prior ↔ x ∈ prior') → (∀ f, f ∈ l ↔ f ∈ l') →
  merged_sources prior l = merged_sources prior' l'.
Proof.
  intros Hp Hl. unfold merged_sources. do 2 f_equal.
  apply set_eq. intros x. rewrite !elem_of_add_sources, !elem_of_list_to_set.
  rewrite Hp. by setoid_rewrite Hl.
Qed.

(** Merging the same files again changes nothing. *)
Lemma merged_sources_idemp prior l :
  merged_sources (merged_sources prior l) l = merged_sources prior l.
Proof.
  unfold merged_sources at 1 3. do 2 f_equal.
  apply set_eq. intros x.
  rewrite !elem_of_add_sources, !elem_of_list_to_set, elem_of_merged.
  tauto.
Qed.
End SourceFacts.

(** ** The blocks of [copy] *)

Section UpdateFacts.
Implicit Types m : gmap string yaml.

Lemma update_model0_run model modfile w m prior :
  manifest_at (files w) modfile m prior →
  update_model0 model modfile w = (Ret (), updated model modfile m prior w).
Proof.
  intros [Hf Hs]. unfold update_model0.
  erewrite bind_Ret by reflexivity.
  erewrite bind_Ret; last first.
  { unfold yaml_load. erewrite bind_Ret by reflexivity. simpl. by rewrite Hf. }
  erewrite bind_Ret; last first.
  { simpl. by rewrite Hs. }
  erewrite bind_Ret; last first.
  { simpl. by rewrite strings_of_YStr. }
  do 2 (erewrite bind_Ret by reflexivity).
  reflexivity.
Qed.

(** It succeeds on a manifest only. *)
Lemma update_model0_inv model modfile w w' :
  update_model0 model modfile w = (Ret (), w') →
  ∃ m prior, manifest_at (files w) modfile m prior
             ∧ w' = updated model modfile m prior w.
Proof.
  intros H.
  assert (∃ m prior, manifest_at (files w) modfile m prior) as (m & prior & Hm).
  { unfold update_model0, yaml_load, getitem, source_set_of in H.
    munfold. simpl in H. unfold manifest_at.
    destruct (files w !! modfile) as [[s|[| | | | |m]]|]; try done.
    destruct (m !! "source") as [[| | | |l|]|] eqn:Hs; try done.
    destruct (strings_of l) as [prior|] eqn:Hl; try done.
    apply strings_of_Some in Hl as ->. by exists m, prior. }
  exists m, prior. split; [done|].
  rewrite (update_model0_run _ _ _ _ _ Hm) in H. by injection H.
Qed.

Lemma updated_manifest model modfile m prior w :
  manifest_at (files (updated model modfile m prior w)) modfile
    (<["source" := YSeq (YStr <$> merged_sources prior (source_files model (files w)))]> m)
    (merged_sources prior (source_files model (files w))).
Proof.
  split; simpl.
  - by rewrite lookup_insert_eq.
  - by rewrite lookup_insert_eq.
Qed.
End UpdateFacts.

Section ZeroFacts.
Lemma zero_run modelfile w m :
  files w !! modelfile = Some (Yaml (YMap m)) →
  zero modelfile w
  = (Ret (),
     World (<[modelfile :=
                Yaml (YMap (<["source" :=
                   YSeq [YStr "testsuites/validation/ts-model-0.c"]]> m))]> (files w))
           (cwd w) (trace w ++ [Print "Zeroing model-0.yml"])).
Proof.
  intros Hf. unfold zero. erewrite bind_Ret by reflexivity.
  erewrite bind_Ret; last first.
  { unfold yaml_load. erewrite bind_Ret by reflexivity. simpl. by rewrite Hf. }
  reflexivity.
Qed.

Lemma zero_inv modelfile w w' :
  zero modelfile w = (Ret (), w') →
  ∃ m, files w !! modelfile = Some (Yaml (YMap m)).
Proof.
  unfold zero, yaml_load, setitem. munfold. simpl.
  destruct (files w !! modelfile) as [[s|[| | | | |m]]|]; try done.
  by exists m.
Qed.
End ZeroFacts.

Section CopyLists.
Variable model : string.
Implicit Types fs : gmap string content.

Lemma elem_of_old_files dir fs p :
  p ∈ old_files model dir fs ↔ artifact dir model p ∧ is_Some (fs !! p).
Proof.
  unfold old_files, artifact. rewrite !elem_of_app, !elem_of_glob. tauto.
Qed.

Lemma elem_of_new_files fs p :
  p ∈ new_files model fs ↔ artifact "" model p ∧ is_Some (fs !! p).
Proof. apply (elem_of_old_files ""). Qed.

Lemma elem_of_source_files fs p :
  p ∈ source_files model fs ↔ source_artifact model p ∧ is_Some (fs !! p).
Proof.
  unfold source_files, source_artifact. rewrite !elem_of_app, !elem_of_glob. tauto.
Qed.

Lemma dot_c_last b x p :
  fnmatch b (x +:+ "*.c") p = true → last_char p = Some "c"%char.
Proof.
  change "*.c" with ("*" +:+ ".c"). rewrite <- app_assoc_s. apply c_last.
Qed.

Lemma dot_h_last b x p :
  fnmatch b (x +:+ "*.h") p = true → last_char p = Some "h"%char.
Proof.
  change "*.h" with ("*" +:+ ".h"). rewrite <- app_assoc_s.
  by apply matches_last.
Qed.

Lemma c_last3 b pre x p :
  fnmatch b (pre +:+ x +:+ "*.c") p = true → last_char p = Some "c"%char.
Proof. rewrite <- app_assoc_s. apply dot_c_last. Qed.

Lemma h_last3 b pre x p :
  fnmatch b (pre +:+ x +:+ "*.h") p = true → last_char p = Some "h"%char.
Proof. rewrite <- app_assoc_s. apply dot_h_last. Qed.

Hypothesis model_no_sep : has_sep model = false.

Lemma base_pattern_no_sep pre suf :
  has_sep pre = false → has_sep suf = false →
  has_sep (pre +:+ model +:+ suf) = false.
Proof. intros H1 H2. by rewrite !has_sep_app, H1, H2, model_no_sep. Qed.

(** The files of a model in the working directory have plain names. *)
Lemma artifact_no_sep p : artifact "" model p → has_sep p = false.
Proof.
  intros [H|[H|H]]; eapply fnmatch_no_sep; try exact H;
    by apply base_pattern_no_sep.
Qed.

Lemma source_artifact_artifact p : source_artifact model p → artifact "" model p.
Proof. intros [H|H]; [by left|by right; right]. Qed.

(** Under a directory the three patterns select different files, so the
    removals of [copy] do not fail. *)
Lemma NoDup_old_files dir fs :
  start_after true dir = true → NoDup (old_files model dir fs).
Proof.
  intros Hdir. unfold old_files. rewrite !NoDup_app. repeat split.
  - apply NoDup_glob.
  - intros p [Hc _]%elem_of_glob [Hh _]%elem_of_glob.
    unfold matches in *. rewrite <- !app_assoc_s in Hc, Hh.
    apply dot_c_last in Hc. apply dot_h_last in Hh. congruence.
  - apply NoDup_glob.
  - intros p Hp [Hc _]%elem_of_glob.
    apply elem_of_app in Hp as [[Hp _]%elem_of_glob|[Hp _]%elem_of_glob].
    + unfold matches in *.
      eapply (fnmatch_split_disjoint true dir "tr-" "tc-"); try exact Hp;
        try exact Hc; try done; by apply base_pattern_no_sep.
    + unfold matches in *. rewrite <- !app_assoc_s in Hc, Hp.
      apply dot_c_last in Hc. apply dot_h_last in Hp. congruence.
  - apply NoDup_glob.
Qed.

Lemma remove_old_run dir w :
  start_after true dir = true →
  remove_old model dir w
  = (Ret (), World (remove_all (old_files model dir (files w)) (files w)) (cwd w)
               (trace w ++ [Print ("Removing old files for model " +:+ model)])).
Proof.
  intros Hdir. unfold remove_old.
  do 4 (erewrite bind_Ret by reflexivity). simpl.
  rewrite for_each_remove; [done|by apply NoDup_old_files|].
  simpl. by intros p [_ Hp]%elem_of_old_files.
Qed.
End CopyLists.

Section CopyLoop.
Variable dir : string.
Hypothesis dir_sep : has_sep dir = true.
Implicit Types fs : gmap string content.

Lemma target_ne f g : has_sep f = false → f ≠ dir +:+ g.
Proof.
  intros Hf ->. by rewrite has_sep_app, dir_sep in Hf.
Qed.

Lemma for_each_ext {A} (l : list A) (f g : A → M unit) :
  (∀ x, f x = g x) → for_each l f = for_each l g.
Proof. intros H. induction l as [|x l IH]; [done|]. simpl. by rewrite H, IH. Qed.

Lemma copyfile_run f w c :
  files w !! f = Some c → has_sep f = false →
  copyfile f (dir +:+ f) w
  = (Ret (), World (<[dir +:+ f := c]> (files w)) (cwd w) (trace w)).
Proof.
  intros Hc Hf. unfold copyfile.
  rewrite decide_False by by apply target_ne.
  erewrite bind_Ret by reflexivity. simpl. by rewrite Hc.
Qed.

Lemma for_each_copy l w :
  (∀ f, f ∈ l → is_Some (files w !! f) ∧ has_sep f = false) →
  for_each l (λ file, copyfile file (dir +:+ file)) w
  = (Ret (), World (copy_all dir l (files w)) (cwd w) (trace w)).
Proof.
  revert w. induction l as [|f l IH]; intros w Hl.
  - by destruct w.
  - destruct (Hl f) as [[c Hc] Hf]; [by left|].
    simpl. erewrite bind_Ret by by apply copyfile_run.
    rewrite IH; simpl.
    + by rewrite Hc.
    + intros g Hg. destruct (Hl g) as [Hsome Hsep]; [by right|].
      split; [|done]. rewrite lookup_insert_ne; [done|].
      intros Heq. by apply (target_ne g f).
Qed.

(** Copies land on the targets only. *)
Lemma lookup_copy_all_other l fs p :
  (∀ f, f ∈ l → p ≠ dir +:+ f) → copy_all dir l fs !! p = fs !! p.
Proof.
  unfold copy_all. revert fs. induction l as [|f l IH]; intros fs Hp; [done|].
  simpl. rewrite IH by (intros g Hg; apply Hp; by right).
  destruct (fs !! f); [|done].
  rewrite lookup_insert_ne; [done|]. intros Heq. by apply (Hp f); [left|].
Qed.

(** Each target holds what its source held. *)
Lemma lookup_copy_all_target l fs f :
  (∀ g, g ∈ l → is_Some (fs !! g) ∧ has_sep g = false) →
  f ∈ l → copy_all dir l fs !! (dir +:+ f) = fs !! f.
Proof.
  revert fs. induction l as [|g l IH]; intros fs Hl Hf.
  - by apply not_elem_of_nil in Hf.
  - destruct (Hl g) as [[c Hc] Hg]; [by left|].
    assert (∀ h, h ∈ l →
              is_Some (<[dir +:+ g := c]> fs !! h) ∧ has_sep h = false) as Hl'.
    { intros h Hh. destruct (Hl h) as [Hsome Hsep]; [by right|].
      split; [|done]. rewrite lookup_insert_ne; [done|].
      intros Heq. by apply (target_ne h g). }
    unfold copy_all. simpl. rewrite Hc. fold (copy_all dir l (<[dir +:+ g := c]> fs)).
    destruct (decide (f ∈ l)) as [Hin|Hnin].
    + rewrite IH by done. destruct (Hl' f Hin) as [_ Hsep].
      rewrite lookup_insert_ne; [done|]. intros Heq. by apply (target_ne f g).
    + apply elem_of_cons in Hf as [->|Hf]; [|done].
      rewrite lookup_copy_all_other.
      * by rewrite lookup_insert_eq.
      * intros h Hh Heq. apply (inj (String.app dir)) in Heq. by subst.
Qed.
End CopyLoop.

(** ** [copy] as a whole *)

Section CopyRun.
Variables model rtems modfile : string.
Hypothesis model_no_sep : has_sep model = false.
Implicit Types fs : gmap string content.

Lemma target_dir_sep : has_sep (target_dir rtems) = true.
Proof. unfold target_dir. rewrite has_sep_app. by rewrite orb_true_r. Qed.

Lemma target_dir_start b : start_after b (target_dir rtems) = true.
Proof. unfold target_dir. by rewrite start_after_app. Qed.

Lemma copy_new_run w :
  copy_new model rtems w
  = (Ret (), World (copy_all (target_dir rtems) (new_files model (files w)) (files w))
               (cwd w)
               (trace w ++ [Print ("Copying new files for model " +:+ model)])).
Proof.
  unfold copy_new. do 4 (erewrite bind_Ret by reflexivity). simpl.
  rewrite (for_each_ext _ _ (λ file, copyfile file (target_dir rtems +:+ file)));
    last first.
  { intros f. unfold target_dir. by rewrite app_assoc_s. }
  rewrite for_each_copy; [done|apply target_dir_sep|].
  simpl. intros f [Hf Hs]%elem_of_new_files. split; [done|].
  by apply (artifact_no_sep model).
Qed.

(** [copy] succeeds when the manifest is there once the files are
    copied. *)
Lemma copy_run dir w m prior :
  start_after true dir = true →
  manifest_at (files (after_copy model dir rtems w)) modfile m prior →
  copy model dir rtems modfile w
  = (Ret (), updated model modfile m prior (after_copy model dir rtems w)).
Proof.
  intros Hdir Hm. unfold copy.
  erewrite bind_Ret by by apply remove_old_run.
  erewrite bind_Ret by apply copy_new_run.
  by apply update_model0_run.
Qed.
End CopyRun.

Section CopyToTarget.
Variables model rtems : string.
Hypothesis model_no_sep : has_sep model = false.
Implicit Types fs : gmap string content.

#[local] Abbreviation T := (target_dir rtems).

Lemma artifact_has_sep p : artifact T model p → has_sep p = true.
Proof.
  intros [H|[H|H]]; eapply fnmatch_has_sep; try exact H;
    by rewrite has_sep_app, (target_dir_sep rtems).
Qed.

(** The copy of a model's file is a model's file of the target
    directory. *)
Lemma target_artifact f : artifact "" model f → artifact T model (T +:+ f).
Proof.
  unfold artifact, matches.
  intros [H|[H|H]]; [left|right; left|right; right];
    apply fnmatch_self_prefix; by rewrite (target_dir_start rtems).
Qed.

(** Plain names are left alone. *)
Lemma after_copy_plain w p :
  has_sep p = false → files (after_copy model T rtems w) !! p = files w !! p.
Proof.
  intros Hp. unfold after_copy. simpl.
  rewrite lookup_copy_all_other; last first.
  { intros f _. apply target_ne; [apply (target_dir_sep rtems)|done]. }
  rewrite lookup_remove_all. case_decide as Hin; [|done].
  apply elem_of_old_files in Hin as [Ha _].
  apply artifact_has_sep in Ha. congruence.
Qed.

Lemma new_files_after_remove w f :
  f ∈ new_files model (remove_all (old_files model T (files w)) (files w))
  ↔ artifact "" model f ∧ is_Some (files w !! f).
Proof.
  rewrite elem_of_new_files. split; intros [Ha Hs]; (split; [done|]).
  - rewrite lookup_remove_all in Hs. case_decide; [by destruct Hs|done].
  - rewrite lookup_remove_all. case_decide as Hin; [|done].
    apply elem_of_old_files in Hin as [Hin _].
    apply artifact_has_sep in Hin. apply (artifact_no_sep model) in Ha; [|done].
    congruence.
Qed.

(** Other paths are left alone. *)
Lemma after_copy_frame w p :
  ¬ artifact T model p → files (after_copy model T rtems w) !! p = files w !! p.
Proof.
  intros Hp. unfold after_copy. simpl.
  rewrite lookup_copy_all_other; last first.
  { intros f [Hf _]%new_files_after_remove ->. by apply Hp, target_artifact. }
  rewrite lookup_remove_all. case_decide as Hin; [|done].
  by apply elem_of_old_files in Hin as [Ha _].
Qed.

(** A target holds what the working directory holds under that name. *)
Lemma after_copy_target w f :
  artifact "" model f →
  files (after_copy model T rtems w) !! (T +:+ f) = files w !! f.
Proof.
  intros Hf. unfold after_copy. simpl.
  set (fs1 := remove_all (old_files model T (files w)) (files w)).
  assert (∀ g, g ∈ new_files model fs1 → is_Some (fs1 !! g) ∧ has_sep g = false)
    as Hnew.
  { intros g [Hg Hs]%elem_of_new_files. split; [done|].
    by apply (artifact_no_sep model). }
  assert (fs1 !! f = files w !! f) as Hsame.
  { unfold fs1. rewrite lookup_remove_all. case_decide as Hin; [|done].
    apply elem_of_old_files in Hin as [Hin _].
    apply artifact_has_sep in Hin. apply (artifact_no_sep model) in Hf; [|done].
    congruence. }
  destruct (files w !! f) as [c|] eqn:Hc.
  - rewrite (lookup_copy_all_target T (target_dir_sep rtems)) ; [done|done|].
    apply new_files_after_remove. by rewrite Hc.
  - rewrite lookup_copy_all_other; last first.
    { intros g [_ Hg]%new_files_after_remove Heq.
      apply (inj (String.app T)) in Heq. subst g. rewrite Hc in Hg.
      by destruct Hg. }
    unfold fs1. rewrite lookup_remove_all. case_decide as Hin; [done|].
    destruct (files w !! (T +:+ f)) eqn:Ht; [|done].
    exfalso. apply Hin, elem_of_old_files. split; [by apply target_artifact|].
    by rewrite Ht.
Qed.

(** A model's file in the target directory is a copy. *)
Lemma after_copy_artifact w p :
  artifact T model p → is_Some (files (after_copy model T rtems w) !! p) →
  ∃ f, p = T +:+ f ∧ artifact "" model f ∧ is_Some (files w !! f).
Proof.
  intros Hp Hs. unfold after_copy in Hs. simpl in Hs.
  destruct (decide (p ∈ String.app T <$> new_files model
              (remove_all (old_files model T (files w)) (files w))))
    as [(f & -> & Hf)%list_elem_of_fmap|Hno].
  - exists f. split; [done|]. by apply new_files_after_remove.
  - exfalso. rewrite lookup_copy_all_other in Hs; last first.
    { intros f Hf Heq. apply Hno, list_elem_of_fmap. by exists f. }
    rewrite lookup_remove_all in Hs. case_decide as Hin; [by destruct Hs|].
    by apply Hin, elem_of_old_files.
Qed.
End CopyToTarget.

(** ** Models that share a prefix *)

Section PrefixFacts.
Implicit Types a x y z p : string.

Lemma start_after_plain b a :
  a ≠ "" → has_sep a = false → start_after b a = false.
Proof.
  revert b. induction a as [|c a IH]; intros b Hne Hs; [done|].
  simpl in *. apply orb_false_elim in Hs as [Hc Ha].
  destruct a as [|c' a]; [done|]. by apply IH.
Qed.

Lemma start_after_false a : has_sep a = false → start_after false a = false.
Proof.
  intros Ha. destruct a as [|c a]; [done|]. by apply start_after_plain.
Qed.

(** A star stands for any run of characters without a separator. *)
Lemma star_extend z x y :
  has_sep x = false → star_of z y = true → star_of z (x +:+ y) = true.
Proof.
  intros Hx Hy. induction x as [|c x IH]; [done|].
  simpl in Hx. apply orb_false_elim in Hx as [Hc Hx].
  rewrite app_cons_s, star_of_unfold. rewrite Hc, IH by done.
  by rewrite orb_true_r.
Qed.

(** What follows a literal prefix up to a star can be left to the star. *)
Lemma fnmatch_widen b a x z p :
  literal (a +:+ x) = true → has_sep x = false → start_after b a = false →
  fnmatch b ((a +:+ x) +:+ String "*" z) p = true →
  fnmatch b (a +:+ String "*" z) p = true.
Proof.
  intros Hl Hx Ha Hm. pose proof Hl as Hl'.
  rewrite literal_app in Hl'. apply andb_prop in Hl' as [Hla _].
  apply fnmatch_prefix in Hm as (y & -> & Hm); [|done].
  rewrite fnmatch_star in Hm.
  destruct (start_after b (a +:+ x) && hidden y); [done|].
  apply fnmatch_prefix; [done|]. exists (x +:+ y).
  split; [by rewrite app_assoc_s|].
  rewrite Ha, fnmatch_star. simpl. by apply star_extend.
Qed.
End PrefixFacts.

(** ** The configuration check of [main] *)

Section MainFacts.
Variable run : option string → string → gmap string content → gmap string content.
Variables (source_dir : string) (argv : list string) (w : world).
Variable cfg : gmap string yaml.
Hypothesis call_ok : valid_call argv = true.
Hypothesis config_loads :
  files w !! (source_dir +:+ "/testbuilder.yml") = Some (Yaml (YMap cfg)).

Lemma main_loads (k : yaml → M unit) :
  (when (negb (is_call argv 2 "help" || is_call argv 3 "clean"
               || is_call argv 2 "zero" || is_call argv 3 "generate"
               || is_call argv 3 "copy" || is_call argv 2 "compile"
               || is_call argv 2 "run"))
     (for_each usage print;; exit 1);;
   config ← yaml_load (source_dir +:+ "/testbuilder.yml"); k config) w
  = k (YMap cfg) w.
Proof.
  unfold valid_call in call_ok. rewrite call_ok. simpl.
  erewrite bind_Ret by reflexivity.
  erewrite bind_Ret; [done|].
  unfold yaml_load. erewrite bind_Ret by reflexivity. by rewrite config_loads.
Qed.

(** A missing field stops [main] with a [KeyError], before any verb is
    dispatched. *)
Lemma main_missing_key key :
  key ∈ config_fields → cfg !! key = None →
  ∃ k, main run source_dir argv w = (Raise (KeyError k), w).
Proof.
  intros Hin Hkey. unfold main. rewrite main_loads.
  unfold config_fields in Hin. unfold getitem.
  repeat match goal with
  | |- context [cfg !! ?f] =>
      let H := fresh "H" in
      destruct (cfg !! f) eqn:H;
      [erewrite bind_Ret by reflexivity|by eexists]
  end.
  exfalso. repeat (apply elem_of_cons in Hin as [->|Hin]; [congruence|]).
  by apply not_elem_of_nil in Hin.
Qed.

(** A tested field whose value is empty is reported, and ends the program
    with status 1 before any verb is dispatched. *)
Lemma main_reports_empty key v :
  (∀ f, f ∈ config_fields → is_Some (cfg !! f)) →
  key ∈ tested_fields → cfg !! key = Some v → truthy v = false →
  main run source_dir argv w
  = (Exit 1, World (files w) (cwd w)
               (trace w ++ [Print "Please configure testbuilder.yml"])).
Proof.
  intros Hall Hin Hkey Hv. unfold main. rewrite main_loads.
  unfold config_fields in Hall. unfold getitem.
  repeat match goal with
  | |- context [cfg !! ?f] =>
      let H := fresh "H" in
      let x := fresh "x" in
      destruct (Hall f) as [x H];
      [repeat first [by left | right]|];
      rewrite H; erewrite bind_Ret by reflexivity
  end.
  assert (truthy x && truthy x0 && truthy x1 && truthy x2 && truthy x3
          && truthy x5 = false) as ->; [|reflexivity].
  unfold tested_fields in Hin.
  repeat (apply elem_of_cons in Hin as [->|Hin];
          [simplify_eq; rewrite Hv; by rewrite ?andb_false_r|]).
  by apply not_elem_of_nil in Hin.
Qed.
End MainFacts.

(** ** Synchronising twice *)

Section CopyTwice.
Variables model rtems modfile : string.
Variables (m : gmap string yaml) (prior : list string) (w : world).
Hypothesis model_no_sep : has_sep model = false.
Hypothesis manifest_ok : manifest_at (files w) modfile m prior.
Hypothesis manifest_apart :
  ¬ artifact (target_dir rtems) model modfile ∧ ¬ artifact "" model modfile.

#[local] Abbreviation T := (target_dir rtems).
#[local] Abbreviation w1 :=
  (updated model modfile m prior (after_copy model T rtems w)).

Lemma copy_once : copy model T rtems modfile w = (Ret (), w1).
Proof.
  apply copy_run; [done|apply target_dir_start|].
  destruct manifest_ok as [Hf Hs]. split; [|done].
  rewrite after_copy_frame; [done|done|apply manifest_apart].
Qed.

Lemma once_plain f :
  artifact "" model f → files w1 !! f = files w !! f.
Proof.
  intros Hf. simpl. rewrite lookup_insert_ne.
  - apply (after_copy_plain model rtems). by apply (artifact_no_sep model).
  - intros <-. by apply manifest_apart.
Qed.

Lemma once_sources f :
  f ∈ source_files model (files (after_copy model T rtems w1))
  ↔ f ∈ source_files model (files (after_copy model T rtems w)).
Proof.
  rewrite !elem_of_source_files.
  split; intros [Hf Hs]; (split; [done|]);
    pose proof (source_artifact_artifact model f Hf) as Ha;
    pose proof (artifact_no_sep model model_no_sep f Ha) as Hsep.
  - rewrite (after_copy_plain model rtems) in Hs by done.
    rewrite once_plain in Hs by done.
    by rewrite (after_copy_plain model rtems).
  - rewrite (after_copy_plain model rtems) by done.
    rewrite once_plain by done.
    by rewrite (after_copy_plain model rtems) in Hs.
Qed.

(** Copying the same files of the working directory a second time succeeds
    and changes no file: not the copies, not the manifest. *)
Lemma copy_twice :
  ∃ w2, copy model T rtems modfile w1 = (Ret (), w2) ∧ files w2 = files w1.
Proof.
  assert (manifest_at (files (after_copy model T rtems w1)) modfile
            (<["source" := YSeq (YStr <$> merged_sources prior
                 (source_files model (files (after_copy model T rtems w))))]> m)
            (merged_sources prior
               (source_files model (files (after_copy model T rtems w)))))
    as Hm1.
  { destruct (updated_manifest model modfile m prior (after_copy model T rtems w))
      as [Hf Hs].
    split; [|done]. rewrite after_copy_frame; [done|done|apply manifest_apart]. }
  erewrite copy_run; [|done|apply target_dir_start|exact Hm1].
  eexists. split; [reflexivity|].
  apply map_eq. intros p. destruct (decide (p = modfile)) as [->|Hp].
  - unfold updated at 1. cbn [files]. rewrite lookup_insert_eq.
    destruct (updated_manifest model modfile m prior (after_copy model T rtems w))
      as [-> _].
    set (L := source_files model (files (after_copy model T rtems w))).
    rewrite (merged_sources_ext (merged_sources prior L) (merged_sources prior L)
               _ L); [|done|apply once_sources].
    by rewrite merged_sources_idemp, insert_insert_eq.
  - unfold updated at 1. cbn [files]. rewrite lookup_insert_ne by done.
    transitivity (files (after_copy model T rtems w) !! p); last first.
    { simpl. by rewrite lookup_insert_ne. }
    destruct (decide (artifact T model p)) as [Ha|Ha]; last first.
    { rewrite after_copy_frame by done. simpl. by rewrite lookup_insert_ne. }
    destruct (files (after_copy model T rtems w1) !! p) as [c|] eqn:E1.
    + destruct (after_copy_artifact model rtems model_no_sep w1 p Ha)
        as (f & -> & Hf & Hs); [by rewrite E1|].
      rewrite after_copy_target in E1 by done.
      rewrite once_plain in E1 by done.
      by rewrite after_copy_target.
    + destruct (files (after_copy model T rtems w) !! p) as [c|] eqn:E2; [|done].
      destruct (after_copy_artifact model rtems model_no_sep w p Ha)
        as (f & -> & Hf & Hs); [by rewrite E2|].
      rewrite after_copy_target in E1, E2 by done.
      rewrite once_plain in E1 by done. congruence.
Qed.
End CopyTwice.

(** * The claims *)

(** C1: when the Readiness Set is complete and the number N of trail files
    after the checker run is not 1, [generate] returns normally (no exit, no
    exception) having spawned, after the checker, for each trail index i
    from 1 to N in turn, the replay of trail i ([-t<i>]) redirected into
    [model-<i-1>.spn] and then the generator with the model and the offset
    i-1; for N = 0 it spawns nothing after the checker. *)
Theorem generate_indexed_trails run model testgen w :
  ready model (files w) →
  trails_after_checker run model w ≠ 1 →
  ∃ w',
    generate run model testgen w = (Ret (), w')
    ∧ status (generate run model testgen w).1 = 0%Z
    ∧ trace w'
      = trace w
        ++ [Print ("Generating spin and test files for " +:+ model);
            System ("spin -DTEST_GEN -run -E -c0 -e " +:+ model +:+ ".pml")]
        ++ (i ← seq 1 (trails_after_checker run model w);
            [System ("spin -T -t" +:+ str i +:+ " " +:+ model +:+ ".pml > "
                     +:+ model +:+ "-" +:+ str (i - 1) +:+ ".spn");
             System (testgen +:+ " " +:+ model +:+ " " +:+ str (i - 1))])
    ∧ (trails_after_checker run model w = 0 →
       trace w'
       = trace w
         ++ [Print ("Generating spin and test files for " +:+ model);
             System ("spin -DTEST_GEN -run -E -c0 -e " +:+ model +:+ ".pml")]).
Proof.
  intros Hr Hn. rewrite generate_ready by done.
  rewrite bool_decide_eq_false_2 by done.
  eexists. split; [reflexivity|]. split; [reflexivity|].
  assert (∀ {A B} (f : A → list B) (g : B → event) l,
            g <$> (l ≫= f) = l ≫= (λ x, g <$> f x)) as Hfb.
  { intros A B f g l. induction l as [|x l IH]; [done|].
    by rewrite !bind_cons, fmap_app, IH. }
  split.
  - rewrite !spawned_trace. simpl. rewrite <- !app_assoc. simpl.
    do 3 f_equal. by rewrite Hfb.
  - intros H0. rewrite H0. simpl. by rewrite <- app_assoc.
Qed.

Lemma generate_indexed_trails_witness :
  ∃ w',
    generate (Scenario.checker ["m.pml1.trail"; "m.pml2.trail"; "m.pml3.trail"])
      "m" "gen" (Scenario.start (Scenario.texts Scenario.inputs)) = (Ret (), w')
    ∧ trace w'
      = [Print "Generating spin and test files for m";
         System "spin -DTEST_GEN -run -E -c0 -e m.pml";
         System "spin -T -t1 m.pml > m-0.spn"; System "gen m 0";
         System "spin -T -t2 m.pml > m-1.spn"; System "gen m 1";
         System "spin -T -t3 m.pml > m-2.spn"; System "gen m 2"].
Proof.
  destruct (generate_indexed_trails
              (Scenario.checker ["m.pml1.trail"; "m.pml2.trail"; "m.pml3.trail"])
              "m" "gen" (Scenario.start (Scenario.texts Scenario.inputs)))
    as (w' & Hg & _ & Ht & _).
  - unfold ready, readiness_set. repeat constructor; vm_compute; eauto.
  - vm_compute. discriminate.
  - exists w'. split; [exact Hg|]. rewrite Ht. vm_compute. reflexivity.
Defined.

(** C5: when the Readiness Set is complete and exactly one trail file is
    there after the checker run, [generate] spawns the replay once,
    redirected into the unindexed [model.spn], then the generator once with
    the model alone, and exits at once with status 0. *)
Theorem generate_single_trail run model testgen w :
  ready model (files w) →
  trails_after_checker run model w = 1 →
  ∃ w',
    generate run model testgen w = (Exit 0, w')
    ∧ status (generate run model testgen w).1 = 0%Z
    ∧ trace w'
      = trace w
        ++ [Print ("Generating spin and test files for " +:+ model);
            System ("spin -DTEST_GEN -run -E -c0 -e " +:+ model +:+ ".pml");
            System ("spin -T -t " +:+ model +:+ ".pml > " +:+ model +:+ ".spn");
            System (testgen +:+ " " +:+ model)].
Proof.
  intros Hr Hn. rewrite generate_ready by done.
  rewrite bool_decide_eq_true_2 by done.
  eexists. split; [reflexivity|]. split; [reflexivity|].
  rewrite !spawned_trace. simpl. by rewrite <- !app_assoc.
Qed.

Lemma generate_single_trail_witness :
  ∃ w',
    generate (Scenario.checker ["m.pml.trail"])
      "m" "gen" (Scenario.start (Scenario.texts Scenario.inputs)) = (Exit 0, w')
    ∧ trace w'
      = [Print "Generating spin and test files for m";
         System "spin -DTEST_GEN -run -E -c0 -e m.pml";
         System "spin -T -t m.pml > m.spn"; System "gen m"].
Proof.
  destruct (generate_single_trail (Scenario.checker ["m.pml.trail"])
              "m" "gen" (Scenario.start (Scenario.texts Scenario.inputs)))
    as (w' & Hg & _ & Ht).
  - unfold ready, readiness_set. repeat constructor; vm_compute; eauto.
  - vm_compute. reflexivity.
  - exists w'. split; [exact Hg|]. rewrite Ht. vm_compute. reflexivity.
Defined.


(** C8: on a manifest that loads as a mapping, [zero] returns normally and
    writes the manifest back with its source list replaced by the
    one-element list of the baseline test-suite source, whatever was
    tracked before; every other field of the manifest, and every other
    file, is as before. *)
Theorem zero_resets_sources modelfile w m :
  files w !! modelfile = Some (Yaml (YMap m)) →
  ∃ w' m',
    zero modelfile w = (Ret (), w')
    ∧ files w' !! modelfile = Some (Yaml (YMap m'))
    ∧ m' !! "source" = Some (YSeq [YStr "testsuites/validation/ts-model-0.c"])
    ∧ (∀ key, key ≠ "source" → m' !! key = m !! key)
    ∧ (∀ p, p ≠ modelfile → files w' !! p = files w !! p).
Proof.
  intros Hm. rewrite (zero_run _ _ _ Hm). eexists _, _.
  split; [reflexivity|]. simpl. split; [by rewrite lookup_insert_eq|].
  split; [by rewrite lookup_insert_eq|]. split.
  - intros key Hk. by rewrite lookup_insert_ne.
  - intros p Hp. by rewrite lookup_insert_ne.
Qed.

Lemma zero_resets_sources_witness :
  ∃ w' m',
    zero "r/model-0.yml" (Scenario.start (Scenario.tree "old.c")) = (Ret (), w')
    ∧ files w' !! "r/model-0.yml" = Some (Yaml (YMap m'))
    ∧ m' !! "source" = Some (YSeq [YStr "testsuites/validation/ts-model-0.c"])
    ∧ m' !! "build-type" = Some (YStr "test-program").
Proof.
  destruct (zero_resets_sources "r/model-0.yml"
              (Scenario.start (Scenario.tree "old.c")) Scenario.manifest)
    as (w' & m' & Hz & Hf & Hs & Hk & _).
  - vm_compute. reflexivity.
  - exists w', m'. repeat split; try done.
    rewrite Hk by done. vm_compute. reflexivity.
Defined.



(** C7: once the manifest update of [copy] has succeeded, running it again
    on the same working directory succeeds too and leaves every file, the
    manifest with its sorted source list among them, exactly as the first
    run left it: nothing is appended twice and no duplicate is an error. *)
Theorem update_model0_idempotent model modfile w w1 :
  update_model0 model modfile w = (Ret (), w1) →
  ∃ w2, update_model0 model modfile w1 = (Ret (), w2) ∧ files w2 = files w1.
Proof.
  intros H. apply update_model0_inv in H as (m & prior & Hm & ->).
  rewrite (update_model0_run _ _ _ _ _ (updated_manifest model modfile m prior w)).
  eexists. split; [reflexivity|].
  assert (source_files model (files (updated model modfile m prior w))
          = source_files model (files w)) as Hsame.
  { unfold source_files.
    assert (dom (files (updated model modfile m prior w)) = dom (files w))
      as Hdom.
    { simpl. rewrite dom_insert_L. destruct Hm as [Hf _].
      apply (elem_of_dom_2 (files w)) in Hf.
      by apply subseteq_union_1_L, singleton_subseteq_l. }
    by rewrite !(glob_dom _ _ _ Hdom). }
  unfold updated at 1. cbn [files]. rewrite Hsame.
  rewrite merged_sources_idemp. unfold updated. cbn [files].
  by rewrite !insert_insert_eq.
Qed.

Lemma update_model0_idempotent_witness :
  ∃ w2,
    update_model0 "m" "r/model-0.yml"
      (update_model0 "m" "r/model-0.yml" (Scenario.start (Scenario.tree "old.c"))).2
    = (Ret (), w2)
    ∧ files w2
      = files (update_model0 "m" "r/model-0.yml"
                 (Scenario.start (Scenario.tree "old.c"))).2.
Proof.
  apply (update_model0_idempotent "m" "r/model-0.yml"
           (Scenario.start (Scenario.tree "old.c"))).
  vm_compute. reflexivity.
Defined.







(** C4 (code bug): with only the run header [m-run.h] missing, [generate]
    exits with status 1 before spawning anything, but the cause it prints
    is the one of the description file: the output is the same as with only
    [m.pml] missing. *)
Theorem missing_run_header_reported_as_promela run testgen :
  generate run "m" testgen
    (Scenario.start
       (Scenario.texts ["m.pml"; "m-pre.h"; "m-post.h"; "m-rfn.yml"]))
  = (Exit 1,
     World (Scenario.texts ["m.pml"; "m-pre.h"; "m-post.h"; "m-rfn.yml"]) None
       [Print "Promela file does not exist for model"])
  ∧ trace (generate run "m" testgen
             (Scenario.start
                (Scenario.texts ["m-pre.h"; "m-post.h"; "m-run.h"; "m-rfn.yml"]))).2
    = [Print "Promela file does not exist for model"].
Proof.
  split.
  - rewrite generate_not_ready; [reflexivity|].
    unfold ready, readiness_set. rewrite !Forall_cons. simpl.
    intros (_ & _ & _ & [c Hc] & _). vm_compute in Hc. discriminate Hc.
  - rewrite generate_not_ready; [reflexivity|].
    unfold ready, readiness_set. rewrite !Forall_cons. simpl.
    intros ([c Hc] & _). vm_compute in Hc. discriminate Hc.
Qed.

(** C3 (code bug): with an empty test-source directory in the
    configuration, [main] reports nothing and dispatches the verb: [zero]
    runs, and [copy] removes the generated files of the working directory
    instead of old files of the target tree.  An empty generator path, in
    contrast, is reported and ends the program with status 1. *)
Theorem empty_testcode_not_reported run :
  (∃ w',
     main run "s" ["testbuilder.py"; "zero"]
       (Scenario.installed (YStr "spin2test") (YStr "")) = (Ret (), w')
     ∧ trace w' = [Print "Zeroing model-0.yml"])
  ∧ (∃ w',
       main run "s" ["testbuilder.py"; "copy"; "m"]
         (Scenario.installed (YStr "spin2test") (YStr "")) = (Ret (), w')
       ∧ files w' !! "tr-m-0.c" = None
       ∧ files w' !! "r/testsuites/validation/tr-m-0.c" = None)
  ∧ main run "s" ["testbuilder.py"; "zero"]
      (Scenario.installed (YStr "") (YStr "r/testsuites/validation/"))
    = (Exit 1,
       World (files (Scenario.installed (YStr "") (YStr "r/testsuites/validation/")))
         None [Print "Please configure testbuilder.yml"]).
Proof.
  split; [|split].
  - eexists. split; vm_compute; reflexivity.
  - eexists. split; [vm_compute; reflexivity|].
    split; vm_compute; reflexivity.
  - vm_compute. reflexivity.
Qed.

(** * Further properties of the operations *)

Section StopFacts.
Context {A B : Type}.

Lemma bind_Exit (m : M A) (k : A → M B) w code w1 :
  m w = (Exit code, w1) → (m ≫= k) w = (Exit code, w1).
Proof. unfold mbind, M_bind, bind. by intros ->. Qed.

Lemma bind_Raise (m : M A) (k : A → M B) w e w1 :
  m w = (Raise e, w1) → (m ≫= k) w = (Raise e, w1).
Proof. unfold mbind, M_bind, bind. by intros ->. Qed.
End StopFacts.

Section MainDispatch.
Variable run : option string → string → gmap string content → gmap string content.
Variables (source_dir : string) (w : world).
Variables (cfg : gmap string yaml) (c : settings).
Hypothesis config_loads :
  files w !! (source_dir +:+ "/testbuilder.yml") = Some (Yaml (YMap cfg)).
Hypothesis config_holds : holds cfg c.
Hypothesis config_nonempty : tested_nonempty c.

Lemma truthy_str s : s ≠ "" → truthy (YStr s) = true.
Proof.
  intros Hs. simpl. apply negb_true_iff. by apply String.eqb_neq.
Qed.

(** Past the usage and configuration checks, [main] is its dispatch. *)
Lemma main_configured argv :
  valid_call argv = true →
  main run source_dir argv w
  = (when (verb_is argv "help")
       (fs ← get_files;
        match fs !! (source_dir +:+ "/testbuilder.help") with
        | Some c => emit (PrintFile c)
        | None => raise (FileNotFoundError (source_dir +:+ "/testbuilder.help"))
        end);;
     when (verb_is argv "generate")
       (model ← arg argv 2; generate run model (spin2test c));;
     when (verb_is argv "clean")
       (model ← arg argv 2; clean model);;
     when (verb_is argv "zero") (zero (testyaml c));;
     when (verb_is argv "copy")
       (model ← arg argv 2; copy model (testcode c) (rtems c) (testyaml c));;
     when (verb_is argv "compile")
       (os_chdir (rtems c);;
        os_system run "./waf configure";;
        os_system run "./waf");;
     when (verb_is argv "run")
       (os_chdir (rsb c);;
        print ("Doing " +:+ (simulator c +:+ " -leon3 -r s -m 2 ") +:+ testexe c);;
        os_system run ((simulator c +:+ " -leon3 -r s -m 2 ") +:+ testexe c))) w.
Proof.
  intros Hcall. unfold main. rewrite (main_loads _ _ _ cfg Hcall config_loads).
  destruct config_holds as (H1 & H2 & H3 & H4 & H5 & H6 & H7).
  destruct config_nonempty as (N1 & N2 & N3 & N4 & N5 & N7).
  unfold getitem. rewrite H1, H2, H3, H4, H5, H6, H7.
  do 7 (erewrite bind_Ret by reflexivity).
  rewrite !truthy_str by done. simpl negb.
  erewrite bind_Ret by reflexivity.
  reflexivity.
Qed.

(** Skipped verbs leave the outcome of the one that ran. *)
Lemma then_nothing (m : M unit) w0 : (m;; mret ()) w0 = m w0.
Proof.
  unfold mbind, M_bind, bind. by destruct (m w0) as [[[]|code|e] w'].
Qed.

Lemma arg_bind a0 v x (k : string → M unit) : (arg [a0; v; x] 2 ≫= k) = k x.
Proof. reflexivity. Qed.

Ltac settle_verbs :=
  repeat match goal with
  | |- context [verb_is ?a ?v] =>
      let b := eval vm_compute in (verb_is a v) in
      change (verb_is a v) with b
  end;
  rewrite ?arg_bind; cbv beta.

Ltac run_one op :=
  generalize op; intros m0;
  unfold when, mbind, M_bind, bind, mret, M_ret, ret;
  match goal with
  | |- _ = m0 ?w0 => destruct (m0 w0) as [[[]|code|e] w']; reflexivity
  end.

(** X1: with a configuration that holds the seven settings as strings, the
    tested ones not empty, [main] with the verb [generate], [clean], [zero]
    or [copy] does what the operation of that name does, on the model given
    and the configured generator, directories and manifest, and nothing
    else: outcome, files and trace are those of the operation. *)
Theorem main_dispatches a0 model :
  main run source_dir [a0; "generate"; model] w
  = generate run model (spin2test c) w
  ∧ main run source_dir [a0; "clean"; model] w = clean model w
  ∧ main run source_dir [a0; "zero"] w = zero (testyaml c) w
  ∧ main run source_dir [a0; "copy"; model] w
    = copy model (testcode c) (rtems c) (testyaml c) w.
Proof.
  repeat split; rewrite main_configured by reflexivity; settle_verbs.
  - run_one (generate run model (spin2test c)).
  - run_one (clean model).
  - run_one (zero (testyaml c)).
  - run_one (copy model (testcode c) (rtems c) (testyaml c)).
Qed.

End MainDispatch.

Lemma main_dispatches_witness :
  main Scenario.idle "s" ["testbuilder.py"; "generate"; "m"]
    (Installation.world_of (YMap Installation.document))
  = generate Scenario.idle "m" "spin2test"
      (Installation.world_of (YMap Installation.document))
  ∧ main Scenario.idle "s" ["testbuilder.py"; "clean"; "m"]
      (Installation.world_of (YMap Installation.document))
    = clean "m" (Installation.world_of (YMap Installation.document))
  ∧ main Scenario.idle "s" ["testbuilder.py"; "zero"]
      (Installation.world_of (YMap Installation.document))
    = zero "r/model-0.yml" (Installation.world_of (YMap Installation.document))
  ∧ main Scenario.idle "s" ["testbuilder.py"; "copy"; "m"]
      (Installation.world_of (YMap Installation.document))
    = copy "m" "r/testsuites/validation/" "r/" "r/model-0.yml"
        (Installation.world_of (YMap Installation.document)).
Proof.
  apply (main_dispatches Scenario.idle "s"
           (Installation.world_of (YMap Installation.document))
           Installation.document Installation.paths).
  - vm_compute. reflexivity.
  - repeat split; vm_compute; reflexivity.
  - repeat split; discriminate.
Defined.


(** X3: a command line that is none of the seven accepted ones makes
    [main] print the eight usage lines and exit with status 1; the
    configuration is not read and no file is touched. *)
Theorem main_rejects_bad_call run source_dir argv w :
  valid_call argv = false →
  main run source_dir argv w
  = (Exit 1, World (files w) (cwd w) (trace w ++ (Print <$> usage))).
Proof.
  intros Hcall. unfold main. unfold valid_call in Hcall. rewrite Hcall.
  simpl negb. unfold when.
  erewrite bind_Exit; [reflexivity|].
  unfold usage. simpl. unfold mbind, M_bind, bind, print, emit, exit. simpl.
  by rewrite <- !app_assoc.
Qed.

Lemma main_rejects_bad_call_witness :
  main Scenario.idle "s" ["testbuilder.py"; "clean"]
    (Installation.world_of (YMap Installation.document))
  = (Exit 1,
     World (files (Installation.world_of (YMap Installation.document))) None
       (Print <$> usage)).
Proof.
  apply (main_rejects_bad_call Scenario.idle "s" ["testbuilder.py"; "clean"]
           (Installation.world_of (YMap Installation.document))).
  vm_compute. reflexivity.
Defined.

(** X4: when the configuration lacks one of the seven fields, [main] stops
    with a [KeyError] for the first field that is missing, in the order it
    reads them; nothing is printed, no file is touched and no verb is
    dispatched. *)
Theorem main_stops_on_missing_field run source_dir argv w cfg key :
  valid_call argv = true →
  files w !! (source_dir +:+ "/testbuilder.yml") = Some (Yaml (YMap cfg)) →
  key ∈ config_fields → cfg !! key = None →
  ∃ k, head (filter (λ f, cfg !! f = None) config_fields) = Some k
       ∧ main run source_dir argv w = (Raise (KeyError k), w).
Proof.
  intros Hcall Hload Hin Hkey. unfold main.
  rewrite (main_loads _ _ _ cfg Hcall Hload).
  unfold config_fields in *. unfold getitem.
  repeat match goal with
  | |- context [mbind _ (match cfg !! ?f with _ => _ end)] =>
      let H := fresh "H" in
      destruct (cfg !! f) eqn:H;
      [erewrite bind_Ret by reflexivity
      |exists f; split;
       [repeat (rewrite filter_cons_False by congruence);
        by rewrite filter_cons_True by done
       |reflexivity]]
  end.
  exfalso. repeat (apply elem_of_cons in Hin as [->|Hin]; [congruence|]).
  by apply not_elem_of_nil in Hin.
Qed.

Lemma main_stops_on_missing_field_witness :
  main Scenario.idle "s" ["testbuilder.py"; "zero"]
    (Installation.world_of
       (YMap (delete "rsb" (delete "testexe" Installation.document))))
  = (Raise (KeyError "rsb"),
     Installation.world_of
       (YMap (delete "rsb" (delete "testexe" Installation.document)))).
Proof.
  destruct (main_stops_on_missing_field Scenario.idle "s"
              ["testbuilder.py"; "zero"]
              (Installation.world_of
                 (YMap (delete "rsb" (delete "testexe" Installation.document))))
              (delete "rsb" (delete "testexe" Installation.document)) "testexe")
    as (k & Hk & Hmain).
  - vm_compute. reflexivity.
  - vm_compute. reflexivity.
  - unfold config_fields. by repeat first [by left | right].
  - vm_compute. reflexivity.
  - vm_compute in Hk. injection Hk as <-. exact Hmain.
Defined.

(** X5: when the configuration holds all seven fields and the value of one
    of the six tested ones ([spin2test], [rtems], [rsb], [simulator],
    [testyaml], [testexe]) is empty (an empty string, null, zero, false, an
    empty list or mapping), [main] prints [Please configure
    testbuilder.yml] and exits with status 1, whatever the verb; no file is
    touched. *)
Theorem main_reports_empty_setting run source_dir argv w cfg key v :
  valid_call argv = true →
  files w !! (source_dir +:+ "/testbuilder.yml") = Some (Yaml (YMap cfg)) →
  (∀ f, f ∈ config_fields → is_Some (cfg !! f)) →
  key ∈ tested_fields → cfg !! key = Some v → truthy v = false →
  main run source_dir argv w
  = (Exit 1, World (files w) (cwd w)
               (trace w ++ [Print "Please configure testbuilder.yml"])).
Proof. intros. by eapply main_reports_empty. Qed.

Lemma main_reports_empty_setting_witness :
  main Scenario.idle "s" ["testbuilder.py"; "copy"; "m"]
    (Installation.world_of (YMap (<["rsb" := YNull]> Installation.document)))
  = (Exit 1,
     World
       (files (Installation.world_of
                 (YMap (<["rsb" := YNull]> Installation.document))))
       None [Print "Please configure testbuilder.yml"]).
Proof.
  apply (main_reports_empty_setting Scenario.idle "s"
           ["testbuilder.py"; "copy"; "m"]
           (Installation.world_of (YMap (<["rsb" := YNull]> Installation.document)))
           (<["rsb" := YNull]> Installation.document) "rsb" YNull).
  - vm_compute. reflexivity.
  - vm_compute. reflexivity.
  - intros f Hf. unfold config_fields in Hf.
    repeat (apply elem_of_cons in Hf as [->|Hf]; [vm_compute; eauto|]).
    by apply not_elem_of_nil in Hf.
  - unfold tested_fields. by repeat first [by left | right].
  - vm_compute. reflexivity.
  - reflexivity.
Defined.

(** X6: with a valid command line and no configuration file beside the
    script, [main] stops with [FileNotFoundError] for that file before
    anything is printed or dispatched. *)
Theorem main_needs_its_configuration run source_dir argv w :
  valid_call argv = true →
  files w !! (source_dir +:+ "/testbuilder.yml") = None →
  main run source_dir argv w
  = (Raise (FileNotFoundError (source_dir +:+ "/testbuilder.yml")), w).
Proof.
  intros Hcall Hnone. unfold main. unfold valid_call in Hcall.
  rewrite Hcall. simpl negb. unfold when.
  erewrite bind_Ret by reflexivity.
  erewrite bind_Raise; [reflexivity|].
  unfold yaml_load. erewrite bind_Ret by reflexivity. by rewrite Hnone.
Qed.

Lemma main_needs_its_configuration_witness :
  main Scenario.idle "s" ["testbuilder.py"; "zero"]
    (Scenario.start (Scenario.tree "old.c"))
  = (Raise (FileNotFoundError "s/testbuilder.yml"),
     Scenario.start (Scenario.tree "old.c")).
Proof.
  apply (main_needs_its_configuration Scenario.idle "s" ["testbuilder.py"; "zero"]
           (Scenario.start (Scenario.tree "old.c"))).
  - vm_compute. reflexivity.
  - vm_compute. reflexivity.
Defined.

(** X7: when a file of the Readiness Set is missing, [generate] still makes
    all five checks, prints one message per missing file, in the order of
    the checks and at least one, and exits with status 1; the files are
    untouched and nothing is spawned, the checker included. *)
Theorem generate_aborts_unless_ready run model testgen w :
  ¬ ready model (files w) →
  generate run model testgen w
  = (Exit 1, World (files w) (cwd w)
               (trace w ++ (Print <$> missing_messages model (files w))))
  ∧ missing_messages model (files w) ≠ [].
Proof.
  intros Hnr. split; [by apply generate_not_ready|].
  intros Hnil. apply Hnr. unfold ready. apply Forall_forall. intros pm Hpm.
  unfold missing_messages in Hnil. apply fmap_nil_inv in Hnil.
  destruct (files w !! pm.1) as [c|] eqn:Hc; [by exists c|].
  by destruct (filter_nil_not_elem_of _ _ pm Hnil Hc).
Qed.

Lemma generate_aborts_unless_ready_witness :
  generate Scenario.idle "m" "gen"
    (Scenario.start (Scenario.texts ["m.pml"; "m-pre.h"]))
  = (Exit 1,
     World (Scenario.texts ["m.pml"; "m-pre.h"]) None
       [Print "Postconditions file does not exist for model";
        Print "Promela file does not exist for model";
        Print "Refinement file does not exist for model"]).
Proof.
  destruct (generate_aborts_unless_ready Scenario.idle "m" "gen"
              (Scenario.start (Scenario.texts ["m.pml"; "m-pre.h"])))
    as [Hg _].
  - unfold ready, readiness_set. rewrite !Forall_cons. simpl.
    intros (_ & _ & [c Hc] & _). vm_compute in Hc. discriminate Hc.
  - rewrite Hg. vm_compute. reflexivity.
Defined.



(** X9: [zero] writes nothing unless the manifest loads as a mapping: with
    the file missing, not YAML or not a mapping, it prints its line and
    stops with an exception, and every file is as before. *)
Theorem zero_fails_without_writing modelfile w :
  (∀ m, files w !! modelfile ≠ Some (Yaml (YMap m))) →
  ∃ e,
    zero modelfile w
    = (Raise e, World (files w) (cwd w) (trace w ++ [Print "Zeroing model-0.yml"])).
Proof.
  intros Hno. unfold zero, yaml_load, setitem. munfold. simpl.
  destruct (files w !! modelfile) as [[s|[| | | | |m]]|] eqn:Hf;
    try (eexists; reflexivity).
  by destruct (Hno m).
Qed.

Lemma zero_fails_without_writing_witness :
  ∃ e,
    zero "r/model-0.yml"
      (Scenario.start (<["r/model-0.yml" := Yaml (YSeq [YStr "a.c"])]> ∅))
    = (Raise e,
       World (<["r/model-0.yml" := Yaml (YSeq [YStr "a.c"])]> ∅) None
         [Print "Zeroing model-0.yml"]).
Proof.
  destruct (zero_fails_without_writing "r/model-0.yml"
              (Scenario.start (<["r/model-0.yml" := Yaml (YSeq [YStr "a.c"])]> ∅)))
    as [e He].
  - intros m. vm_compute. discriminate.
  - exists e. exact He.
Defined.










